(** * Tax-form requests: a shallow embedding of [server/lib/tax-forms.ts]

    The module decides which accounts must be sent a US tax form for a
    year, picks the admin to contact, drives the HelloWorks workflow and
    records the request in the [LegalDocuments] table.

    Numbers are [Z]; names, which the module measures and cuts, are
    JavaScript strings given symbol by symbol ([JsString.t]); e-mail
    addresses, URLs and identifiers, which it only passes on, are [string];
    nullable columns are [option], JSON columns are trees ([json]).  Code that
    logs, writes to the database or calls HelloWorks runs in a small
    state-and-exception monad over a [World]. *)

From Stdlib Require Import ZArith Lia String Ascii List Bool.
From stdpp Require Import base decidable option list gmap strings.

Local Open Scope string_scope.
Local Open Scope Z_scope.
Local Open Scope list_scope.

(** ** Thresholds ([amountsRequireTaxForm]) *)

(** The two cut-offs are imported from [../constants/tax-form]; they are
    taken as parameters here. *)
Section Thresholds.
Variable US_TAX_FORM_THRESHOLD : Z.
Variable US_TAX_FORM_THRESHOLD_FOR_PAYPAL : Z.

Definition amountsRequireTaxForm (paypalTotal otherTotal : Z) : bool :=
  (US_TAX_FORM_THRESHOLD <=? otherTotal)
  || (US_TAX_FORM_THRESHOLD_FOR_PAYPAL <=? paypalTotal).
End Thresholds.

(** ** JavaScript strings that are measured and cut *)

Module JsString.
(** A symbol, as [stringToArray] of lodash delimits it: a UTF-16 code unit
    together with the code units that lodash attaches to it (the low
    surrogate of a pair, a combining mark, a variation selector, a joined
    sequence).  In a string that has none of these, every code unit is a
    symbol of its own. *)
Record symbol := mkSymbol { unit : N; attached : list N }.

(** A string, given as the sequence of its symbols. *)
Definition t : Type := list symbol.

(** lodash [stringSize]: the number of symbols. *)
Definition size (s : t) : nat := List.length s.

(** [String.prototype.length]: the number of UTF-16 code units. *)
Definition length (s : t) : nat :=
  fold_right (fun c n => (S (List.length (attached c)) + n)%nat) 0%nat s.

(** A string of ASCII characters: one code unit, one symbol for each. *)
Definition ascii (s : string) : t :=
  map (fun a => mkSymbol (N_of_ascii a) []) (list_ascii_of_string s).
End JsString.

(** ** Models *)

Module Collective.
Record t := mk {
  id : Z;
  type : string;
  slug : JsString.t;
  name : option JsString.t;
  legalName : option JsString.t
}.
End Collective.

Module User.
Record t := mk {
  id : Z;
  email : string;
  collective : Collective.t
}.
End User.

Module Expense.
Record t := mk {
  id : Z;
  createdAt : Z;
  FromCollectiveId : Z;
  UserId : Z
}.
End Expense.

(** ** JavaScript values used on strings *)

(** Truthiness of a nullable string: [null], [undefined] and [''] are falsy. *)
Definition truthy (s : option JsString.t) : bool :=
  match s with
  | Some (_ :: _) => true
  | Some [] => false
  | None => false
  end.

(** [a || b] on nullable strings. *)
Definition js_or (a b : option JsString.t) : option JsString.t :=
  if truthy a then a else b.

(** lodash [toString]: [null] and [undefined] become the empty string. *)
Definition toString (s : option JsString.t) : JsString.t :=
  match s with
  | Some s' => s'
  | None => []
  end.

(** ** lodash [truncate] *)

Definition DEFAULT_TRUNC_OMISSION : JsString.t := JsString.ascii "...".

(** [truncate(string, { length })] with the default omission and no
    separator.  The string is measured in symbols ([stringSize], which is
    [string.length] when no code unit is attached to another): one that fits
    is returned as it is; otherwise the first [length - 3] symbols are kept
    ([castSlice] of the symbols, or [string.slice]) and the omission is
    appended. *)
Definition truncate (s : JsString.t) (len : nat) : JsString.t :=
  if (len <? JsString.size s)%nat then
    let end_ := (len - JsString.size DEFAULT_TRUNC_OMISSION)%nat in
    if (end_ <? 1)%nat then DEFAULT_TRUNC_OMISSION
    else firstn end_ s ++ DEFAULT_TRUNC_OMISSION
  else s.

(** ** [generateParticipantName] *)

Definition generateParticipantName (account : Collective.t) (mainUser : User.t)
  : JsString.t :=
  if truthy (Collective.legalName account) then
    truncate (toString (Collective.legalName account)) 64
  else if Collective.id account =? Collective.id (User.collective mainUser) then
    truncate (toString (Collective.name account)) 64
  else
    truncate (Collective.slug account) 30 ++ JsString.ascii " ("
      ++ truncate (toString (Collective.name (User.collective mainUser))) 30
      ++ JsString.ascii ")".

(** ** [getMainAdminToContact] *)

(** [Expense.findOne({ order: [['createdAt', 'DESC']], where })]: among the
    rows that satisfy [where], one with the greatest [createdAt]; [None]
    (JavaScript [null]) when no row matches.  Among rows created at the same
    instant the first one of the table is returned. *)
Definition newer (best : option Expense.t) (e : Expense.t) : option Expense.t :=
  match best with
  | None => Some e
  | Some b => if Expense.createdAt b <? Expense.createdAt e then Some e else Some b
  end.

Definition findOneLatest (where_ : Expense.t -> bool) (table : list Expense.t)
  : option Expense.t :=
  fold_left newer (List.filter where_ table) None.

(** [adminUsers.find(pred)] *)
Fixpoint array_find {A} (pred : A -> bool) (l : list A) : option A :=
  match l with
  | [] => None
  | x :: r => if pred x then Some x else array_find pred r
  end.

(** The [where] clause of the expense query. *)
Definition expenseWhere (account : Collective.t) (adminUsers : list User.t)
    (e : Expense.t) : bool :=
  (Expense.FromCollectiveId e =? Collective.id account)
  && existsb (fun uid => Expense.UserId e =? uid) (map User.id adminUsers).

Definition getMainAdminToContact (expenses : list Expense.t)
    (account : Collective.t) (adminUsers : list User.t) : option User.t :=
  let fallback := head adminUsers in
  if (1 <? length adminUsers)%nat then
    let latestExpense := findOneLatest (expenseWhere account adminUsers) expenses in
    let mainUser :=
      match latestExpense with
      | Some e => array_find (fun u => User.id u =? Expense.UserId e) adminUsers
      | None => None
      end in
    match mainUser with
    | Some u => Some u
    | None => fallback
    end
  else fallback.

(** ** JSON values and the [deepmerge] package *)

#[warnings="-register-all"]
Inductive json : Type :=
  | JNull
  | JBool (b : bool)
  | JNum (n : Z)
  | JStr (s : string)
  | JArr (items : list json)
  | JObj (props : list (string * json)).

(** [obj[key]] on the own properties of an object. *)
Fixpoint prop_get (key : string) (props : list (string * json)) : option json :=
  match props with
  | [] => None
  | (k, v) :: r => if String.eqb k key then Some v else prop_get key r
  end.

(** [obj[key] = value]: an existing property keeps its place, a new one is
    added last. *)
Fixpoint prop_set (key : string) (value : json) (props : list (string * json))
  : list (string * json) :=
  match props with
  | [] => [(key, value)]
  | (k, v) :: r =>
      if String.eqb k key then (k, value) :: r else (k, v) :: prop_set key value r
  end.

(** [value.key] when [value] is an object that has the property. *)
Definition json_get (key : string) (value : json) : option json :=
  match value with
  | JObj props => prop_get key props
  | _ => None
  end.

Definition isMergeableObject (value : json) : bool :=
  match value with
  | JArr _ | JObj _ => true
  | _ => false
  end.

(** Own enumerable properties that [mergeObject] copies from its target:
    none unless the target is mergeable. *)
Definition targetProps (target : json) : list (string * json) :=
  match target with
  | JObj props => props
  | _ => []
  end.

(** [key in {}]: the properties that every object inherits from
    [Object.prototype]. *)
Definition inheritedProperty (key : string) : bool :=
  existsb (String.eqb key)
    ["constructor"; "hasOwnProperty"; "isPrototypeOf"; "propertyIsEnumerable";
     "toLocaleString"; "toString"; "valueOf"; "__proto__";
     "__defineGetter__"; "__defineSetter__"; "__lookupGetter__"; "__lookupSetter__"].

(** [destination[key] = value] on the object that [mergeObject] builds: an
    assignment to [__proto__] sets the prototype and adds no property. *)
Definition assign_prop (key : string) (value : json) (destination : list (string * json))
  : list (string * json) :=
  if String.eqb key "__proto__" then destination else prop_set key value destination.

(** [cloneUnlessOtherwiseSpecified(value)], that is [deepmerge] of the value
    into an empty array or an empty object: arrays are cloned element by
    element; objects property by property, except that a property named as
    one that [{}] inherits is unsafe and is skipped. *)
Fixpoint clone (value : json) : json :=
  match value with
  | JArr items => JArr (map clone items)
  | JObj props =>
      JObj ((fix copy (destination : list (string * json))
                 (props : list (string * json)) {struct props}
               : list (string * json) :=
               match props with
               | [] => destination
               | (key, v) :: rest =>
                   if inheritedProperty key then copy destination rest
                   else copy (prop_set key (clone v) destination) rest
               end) [] props)
  | _ => value
  end.

(** What [mergeObject] starts from: a clone of each own property of the
    target. *)
Definition copyProps (tprops : list (string * json)) : list (string * json) :=
  fold_left (fun destination kv => assign_prop (fst kv) (clone (snd kv)) destination)
            tprops [].

(** [deepmerge(target, source)] with the package's default options.  When
    exactly one side is an array the result is a clone of the source; two
    arrays are concatenated and their elements cloned ([defaultArrayMerge]);
    otherwise [mergeObject] clones the target's own properties and then goes
    through the source's: a property that the target only inherits is unsafe
    and is skipped; where the target has the property and the source's value
    is mergeable the two values are merged; in the other cases the source's
    value is cloned in.  The module only passes an object literal as
    [source], and the recursion only descends into mergeable values; a
    primitive [source] is returned unchanged. *)
Fixpoint deepMerge (target source : json) {struct source} : json :=
  match source with
  | JArr ys =>
      match target with
      | JArr xs => JArr (map clone (xs ++ ys))
      | _ => clone source
      end
  | JObj sprops =>
      match target with
      | JArr _ => clone source
      | _ =>
          let tprops := targetProps target in
          JObj ((fix mergeObject (destination : list (string * json))
                     (sprops : list (string * json)) {struct sprops}
                   : list (string * json) :=
                   match sprops with
                   | [] => destination
                   | (key, v) :: rest =>
                       match prop_get key tprops with
                       | Some tv =>
                           mergeObject
                             (assign_prop key
                                (if isMergeableObject v then deepMerge tv v else clone v)
                                destination)
                             rest
                       | None =>
                           if isMergeableObject target && inheritedProperty key
                           then mergeObject destination rest
                           else mergeObject (assign_prop key (clone v) destination) rest
                       end
                   end) (copyProps tprops) sprops)
      end
  | _ => source
  end.

Arguments clone : simpl never.
Arguments deepMerge : simpl never.

(** ** Legal documents *)

Inductive LEGAL_DOCUMENT_TYPE := US_TAX_FORM.

Inductive LEGAL_DOCUMENT_REQUEST_STATUS :=
  | NOT_REQUESTED
  | REQUESTED
  | RECEIVED
  | ERROR.

Module LegalDocument.
Record t := mk {
  id : Z;
  documentType : LEGAL_DOCUMENT_TYPE;
  year : Z;
  CollectiveId : Z;
  requestStatus : LEGAL_DOCUMENT_REQUEST_STATUS;
  data : json
}.

(** The argument of [doc.update(...)]: the columns that are assigned. *)
Record fields := mkFields {
  set_requestStatus : option LEGAL_DOCUMENT_REQUEST_STATUS;
  set_data : option json
}.

Definition assign (f : fields) (d : t) : t :=
  mk (id d) (documentType d) (year d) (CollectiveId d)
     (from_option (fun s => s) (requestStatus d) (set_requestStatus f))
     (from_option (fun j => j) (data d) (set_data f)).
End LegalDocument.

#[global] Instance LEGAL_DOCUMENT_TYPE_eq_dec : EqDecision LEGAL_DOCUMENT_TYPE.
Proof. solve_decision. Defined.

#[global] Instance LEGAL_DOCUMENT_REQUEST_STATUS_eq_dec :
  EqDecision LEGAL_DOCUMENT_REQUEST_STATUS.
Proof. solve_decision. Defined.

(** ** Errors, HelloWorks and e-mail *)

Module JsError.
Record t := mk { message : string; stack : string }.
End JsError.

Module Step.
Record t := mk { step : string; url : string }.
End Step.

Module Instance.
Record t := mk { id : string; steps : list Step.t }.

(** The snapshot stored in the [data] column. *)
Definition toJSON (i : t) : json :=
  JObj [("id", JStr (id i));
        ("steps", JArr (map (fun s => JObj [("step", JStr (Step.step s));
                                            ("url", JStr (Step.url s))])
                            (steps i)))].
End Instance.

Module Participant.
Record t := mk { type : string; value : string; fullName : JsString.t }.
End Participant.

Module Metadata.
Record t := mk {
  accountType : string;
  accountId : Z;
  adminEmails : string;
  userId : Z;
  email : string;
  year : Z
}.
End Metadata.

Module CreateInstance.
Record t := mk {
  callbackUrl : string;
  workflowId : string;
  documentDelivery : bool;
  delegatedAuthentication : bool;
  participants : list (string * Participant.t);
  metadata : Metadata.t
}.
End CreateInstance.

(** How a call completes: with a value or with a thrown error. *)
Inductive completion (A : Type) : Type :=
  | Normal (a : A)
  | Throw (e : JsError.t).
Arguments Normal {A} a.
Arguments Throw {A} e.

(** The two operations of the HelloWorks client that the module uses. *)
Module HelloWorks.
Record t := mk {
  createInstance : CreateInstance.t -> completion Instance.t;
  getAuthenticatedLinkForStep : string -> string -> completion string
}.
End HelloWorks.

Module EmailData.
Record t := mk {
  documentLink : string;
  recipientName : option JsString.t;
  accountName : JsString.t
}.
End EmailData.

(** A settled promise. *)
Inductive promise (A : Type) : Type :=
  | Fulfilled (a : A)
  | Rejected (e : JsError.t).
Arguments Fulfilled {A} a.
Arguments Rejected {A} e.

(** What [emailLib.send] does when it is called: it hands back a promise
    that is later fulfilled or rejected, or it throws before returning. *)
Inductive SendOutcome :=
  | Resolves
  | Rejects (e : JsError.t)
  | ThrowsSync (e : JsError.t).

(** ** The world the module runs in *)

Inductive LogLevel := LogInfo | LogWarn | LogError.

(** The four messages the module logs, by their interpolated values. *)
Inductive LogMessage :=
  | SkippingUser (userId : Z) (email : string)
  | NoContactFound (accountId : Z) (slug : JsString.t)
  | ErrorGettingAuthenticatedLink (instanceId : string) (message : string)
  | FailedToInitialize (accountId : Z) (email : string) (error : JsError.t).

(** What an observer of one run sees, in order. *)
Inductive Event :=
  | Logged (level : LogLevel) (msg : LogMessage)
  | TaxFormsRequiredQuery (year : Z)
  | CollectiveFindAll (ids : list Z)
  | CreateInstanceCall (request : CreateInstance.t)
  | GetAuthenticatedLinkCall (instanceId step : string)
  | Persisted (row : LegalDocument.t)
  | EmailSendCall (template to : string) (data : EmailData.t).

(** The mutable part: the [LegalDocuments] table, the failures the database
    is going to answer its next writes with ([None] or an exhausted list: the
    write goes through), and the events so far, oldest first. *)
Record World := mkWorld {
  legalDocuments : list LegalDocument.t;
  faults : list (option JsError.t);
  trace : list Event
}.

(** The part that a run only reads: configuration, the other tables and the
    collaborators that are imported from other modules.  The queries that load
    the admins, the expenses and the collectives are taken as answered: a run
    in which the database rejects one of them is not described. *)
Record Env := mkEnv {
  config_env : string;
  isEmailInternal : string -> bool;
  getAdminUsers : Collective.t -> list User.t;
  expenses : list Expense.t;
  collectives : list Collective.t;
  getTaxFormsRequiredForAccounts : option (list Z) -> Z -> gset Z;
  shouldBeRequested : LegalDocument.t -> bool;
  emailLib_send : string -> string -> EmailData.t -> SendOutcome;
  (** the [TypeError] the engine raises on [undefined.url] *)
  TypeError_url : JsError.t
}.

(** State and exceptions. *)
Definition M (A : Type) : Type := World -> completion A * World.

Definition ret {A} (a : A) : M A := fun w => (Normal a, w).

Definition bind {A B} (m : M A) (k : A -> M B) : M B :=
  fun w =>
    match m w with
    | (Normal a, w') => k a w'
    | (Throw e, w') => (Throw e, w')
    end.

Definition throw {A} (e : JsError.t) : M A := fun w => (Throw e, w).

(** [try { body } catch (e) { handler }] *)
Definition try_catch {A} (body : M A) (handler : JsError.t -> M A) : M A :=
  fun w =>
    match body w with
    | (Normal a, w') => (Normal a, w')
    | (Throw e, w') => handler e w'
    end.

Notation "'let!' x ':=' m 'in' k" := (bind m (fun x => k))
  (at level 10, x name, m at level 200, k at level 200).
Notation "'do!' m 'in' k" := (bind m (fun _ => k))
  (at level 10, m at level 200, k at level 200).

Definition emit (ev : Event) : M unit :=
  fun w => (Normal tt, mkWorld (legalDocuments w) (faults w) (trace w ++ [ev])).

Definition logger (level : LogLevel) (msg : LogMessage) : M unit :=
  emit (Logged level msg).

Definition lift {A} (c : completion A) : M A :=
  fun w => (c, w).

(** A promise that is returned from an [async] function settles it. *)
Definition settle {A} (p : promise A) : M A :=
  match p with
  | Fulfilled a => ret a
  | Rejected e => throw e
  end.

(** ** The [LegalDocuments] table *)

(** Every write first learns whether the database accepts it. *)
Definition db_write : M unit :=
  fun w =>
    match faults w with
    | [] => (Normal tt, w)
    | None :: rest => (Normal tt, mkWorld (legalDocuments w) rest (trace w))
    | Some e :: rest => (Throw e, mkWorld (legalDocuments w) rest (trace w))
    end.

Definition nextId (table : list LegalDocument.t) : Z :=
  1 + fold_right Z.max 0 (map LegalDocument.id table).

Definition sameKey (documentType : LEGAL_DOCUMENT_TYPE) (year CollectiveId : Z)
    (d : LegalDocument.t) : bool :=
  bool_decide (LegalDocument.documentType d = documentType)
  && (LegalDocument.year d =? year)
  && (LegalDocument.CollectiveId d =? CollectiveId).

(** [LegalDocument.findOrCreate({ where })]: the first row that matches, or
    a new row with the columns of [where] and the defaults of the others.
    The second component tells whether the row was created. *)
Definition findOrCreate (documentType : LEGAL_DOCUMENT_TYPE) (year CollectiveId : Z)
  : M (LegalDocument.t * bool) :=
  do! db_write in
  fun w =>
    match array_find (sameKey documentType year CollectiveId) (legalDocuments w) with
    | Some doc => (Normal (doc, false), w)
    | None =>
        let doc := LegalDocument.mk (nextId (legalDocuments w)) documentType year
                     CollectiveId NOT_REQUESTED JNull in
        (Normal (doc, true),
         mkWorld (legalDocuments w ++ [doc]) (faults w) (trace w ++ [Persisted doc]))
    end.

(** [doc.update(fields)]: assigns the columns on the instance and on its row;
    the other columns and the other rows are left alone. *)
Definition update (doc : LegalDocument.t) (f : LegalDocument.fields)
  : M LegalDocument.t :=
  do! db_write in
  fun w =>
    let doc' := LegalDocument.assign f doc in
    (Normal doc',
     mkWorld (map (fun row => if LegalDocument.id row =? LegalDocument.id doc
                              then LegalDocument.assign f row else row)
                  (legalDocuments w))
             (faults w) (trace w ++ [Persisted doc'])).

(** ** [saveDocumentStatus] *)

Definition saveDocumentStatus (account : Collective.t) (year : Z)
    (requestStatus : LEGAL_DOCUMENT_REQUEST_STATUS) (data : json)
  : M LegalDocument.t :=
  let! found := findOrCreate US_TAX_FORM year (Collective.id account) in
  let doc := fst found in
  update doc (LegalDocument.mkFields (Some requestStatus) (Some data)).

(** ** [findAccountsThatNeedToBeSentTaxForm] *)

(** A collective as [findAll] returns it, with its included documents. *)
Record CollectiveWithDocuments := mkIncluded {
  collective : Collective.t;
  included_legalDocuments : list LegalDocument.t
}.

(** [include: [{ association: 'legalDocuments', required: false, where: { year } }]]:
    the documents of the collective for the year, possibly none. *)
Definition legalDocumentsOf (c : Collective.t) (year : Z) (table : list LegalDocument.t)
  : list LegalDocument.t :=
  List.filter (fun d => (LegalDocument.CollectiveId d =? Collective.id c)
                        && (LegalDocument.year d =? year))
              table.

(** [Collective.findAll({ where: { id }, include: [legalDocuments where year] })] *)
Definition Collective_findAll (env : Env) (ids : list Z) (year : Z)
  : M (list CollectiveWithDocuments) :=
  do! emit (CollectiveFindAll ids) in
  fun w =>
    (Normal
       (map (fun c => mkIncluded c (legalDocumentsOf c year (legalDocuments w)))
            (List.filter (fun c => bool_decide (Collective.id c ∈ ids)) (collectives env))),
     w).

Definition needsTaxForm (env : Env) (c : CollectiveWithDocuments) : bool :=
  (length (included_legalDocuments c) =? 0)%nat
  || existsb (shouldBeRequested env) (included_legalDocuments c).

Definition findAccountsThatNeedToBeSentTaxForm (env : Env) (year : Z)
  : M (list CollectiveWithDocuments) :=
  do! emit (TaxFormsRequiredQuery year) in
  let collectiveIds := getTaxFormsRequiredForAccounts env None year in
  if (size collectiveIds =? 0)%nat then ret []
  else
    let! found := Collective_findAll env (elements collectiveIds) year in
    ret (List.filter (needsTaxForm env) found).

(** ** [getAdminsForAccount] *)

Fixpoint filterM {A} (keep : A -> M bool) (l : list A) : M (list A) :=
  match l with
  | [] => ret []
  | x :: r =>
      let! k := keep x in
      let! r' := filterM keep r in
      ret (if k then x :: r' else r')
  end.

Definition getAdminsForAccount (env : Env) (account : Collective.t) : M (list User.t) :=
  let adminUsers := getAdminUsers env account in
  if String.eqb (config_env env) "production" then ret adminUsers
  else
    filterM (fun user =>
               if isEmailInternal env (User.email user) then ret true
               else
                 do! logger LogInfo (SkippingUser (User.id user) (User.email user)) in
                 ret false)
            adminUsers.

(** ** [sendHelloWorksUsTaxForm] *)

(** What the returned promise is fulfilled with. *)
Inductive FlowResult :=
  | Undefined
  | Document (doc : LegalDocument.t)
  | EmailSent.

(** [adminUsers.map(u => u.email).join(', ')] *)
Definition joinEmails (adminUsers : list User.t) : string :=
  String.concat ", " (map User.email adminUsers).

Definition createInstanceRequest (account : Collective.t) (adminUsers : list User.t)
    (mainUser : User.t) (year : Z) (callbackUrl workflowId : string)
  : CreateInstance.t :=
  CreateInstance.mk callbackUrl workflowId true true
    [("participant_swVuvW",
      Participant.mk "email" (User.email mainUser)
        (generateParticipantName account mainUser))]
    (Metadata.mk (Collective.type account) (Collective.id account)
       (joinEmails adminUsers) (User.id mainUser) (User.email mainUser) year).

(** [emailLib.send(template, to, data)]: the call is observed, then it
    throws or hands back its promise. *)
Definition emailLib_send_call (env : Env) (template to : string) (data : EmailData.t)
  : M (promise FlowResult) :=
  do! emit (EmailSendCall template to data) in
  match emailLib_send env template to data with
  | Resolves => ret (Fulfilled EmailSent)
  | Rejects e => ret (Rejected e)
  | ThrowsSync e => throw e
  end.

(** [instance.steps[0]] followed by [step.url]: reading a property of
    [undefined] throws. *)
Definition firstStep (env : Env) (instance : Instance.t) : M Step.t :=
  match head (Instance.steps instance) with
  | Some step => ret step
  | None => throw (TypeError_url env)
  end.

(** The body of the [try] block.  Its last statement returns the promise of
    [emailLib.send] without awaiting it, so the block completes normally
    with that promise whatever the promise settles to. *)
Definition requestTaxForm (env : Env) (client : HelloWorks.t)
    (account : Collective.t) (mainUser : User.t) (year : Z)
    (request : CreateInstance.t) : M (promise FlowResult) :=
  do! emit (CreateInstanceCall request) in
  let! instance := lift (HelloWorks.createInstance client request) in
  let! document :=
    saveDocumentStatus account year REQUESTED
      (JObj [("helloWorks", JObj [("instance", Instance.toJSON instance)])]) in
  let! step := firstStep env instance in
  let! documentLink :=
    try_catch
      (do! emit (GetAuthenticatedLinkCall (Instance.id instance) (Step.step step)) in
       lift (HelloWorks.getAuthenticatedLinkForStep client
               (Instance.id instance) (Step.step step)))
      (fun e =>
         do! logger LogWarn
               (ErrorGettingAuthenticatedLink (Instance.id instance) (JsError.message e)) in
         ret (Step.url step)) in
  do! update document
        (LegalDocument.mkFields None
           (Some (deepMerge (LegalDocument.data document)
                    (JObj [("helloWorks", JObj [("documentLink", JStr documentLink)])])))) in
  let recipientName :=
    js_or (Collective.name (User.collective mainUser))
          (Collective.legalName (User.collective mainUser)) in
  let accountName :=
    toString (js_or (js_or (Collective.legalName account) (Collective.name account))
                    (Some (Collective.slug account))) in
  emailLib_send_call env "tax-form-request" (User.email mainUser)
    (EmailData.mk documentLink recipientName accountName).

(** The [catch] block. *)
Definition recordFailure (account : Collective.t) (mainUser : User.t) (year : Z)
    (error : JsError.t) : M (promise FlowResult) :=
  do! logger LogError
        (FailedToInitialize (Collective.id account) (User.email mainUser) error) in
  let! doc :=
    saveDocumentStatus account year ERROR
      (JObj [("error", JObj [("message", JStr (JsError.message error));
                             ("stack", JStr (JsError.stack error))])]) in
  ret (Fulfilled (Document doc)).

Definition sendHelloWorksUsTaxForm (env : Env) (client : HelloWorks.t)
    (account : Collective.t) (year : Z) (callbackUrl workflowId : string)
  : M FlowResult :=
  let! adminUsers := getAdminsForAccount env account in
  match getMainAdminToContact (expenses env) account adminUsers with
  | None =>
      do! logger LogError
            (NoContactFound (Collective.id account) (Collective.slug account)) in
      ret Undefined
  | Some mainUser =>
      let request :=
        createInstanceRequest account adminUsers mainUser year callbackUrl workflowId in
      let! returned :=
        try_catch (requestTaxForm env client account mainUser year request)
                  (recordFailure account mainUser year) in
      settle returned
  end.

(** ** What [getAdminsForAccount] computes and what it logs *)

Definition isProduction (env : Env) : bool := String.eqb (config_env env) "production".

(** The admins that are kept: all of them in production, those with an
    internal e-mail address elsewhere. *)
Definition eligibleAdmins (env : Env) (account : Collective.t) : list User.t :=
  if isProduction env then getAdminUsers env account
  else List.filter (fun user => isEmailInternal env (User.email user))
                   (getAdminUsers env account).

(** One line of log for each admin that is dropped. *)
Definition skipLogs (env : Env) (account : Collective.t) : list Event :=
  if isProduction env then []
  else map (fun user => Logged LogInfo (SkippingUser (User.id user) (User.email user)))
           (List.filter (fun user => negb (isEmailInternal env (User.email user)))
                        (getAdminUsers env account)).

(** ** Classes of events *)

Definition isLinkCall (ev : Event) : Prop :=
  match ev with
  | GetAuthenticatedLinkCall _ _ => True
  | _ => False
  end.

Definition isEmailCall (ev : Event) : Prop :=
  match ev with
  | EmailSendCall _ _ _ => True
  | _ => False
  end.

Definition isLogged (ev : Event) : Prop :=
  match ev with
  | Logged _ _ => True
  | _ => False
  end.

(** The write that [findOrCreate] makes when it creates the row. *)
Definition isCreation (ev : Event) : Prop :=
  match ev with
  | Persisted row =>
      LegalDocument.requestStatus row = NOT_REQUESTED /\ LegalDocument.data row = JNull
  | _ => False
  end.

Definition isPersisted (ev : Event) : Prop :=
  match ev with
  | Persisted _ => True
  | _ => False
  end.

(** The rows of the table for one account, year and document type. *)
Definition rowsFor (documentType : LEGAL_DOCUMENT_TYPE) (year CollectiveId : Z)
    (table : list LegalDocument.t) : list LegalDocument.t :=
  List.filter (sameKey documentType year CollectiveId) table.

(** [data.helloWorks.instance] *)
Definition storedInstance (data : json) : option json :=
  match json_get "helloWorks" data with
  | Some hw => json_get "instance" hw
  | None => None
  end.

(** ** Predicates of the statements *)

(** An expense that the query of [getMainAdminToContact] selects: it was
    submitted from the account, by one of the admins. *)
Definition attributable (account : Collective.t) (adminUsers : list User.t)
    (e : Expense.t) : Prop :=
  Expense.FromCollectiveId e = Collective.id account
  /\ exists u, In u adminUsers /\ User.id u = Expense.UserId e.

(** [emits P m]: whatever the world, [m] only appends events, all in [P]. *)
Definition emits {A} (P : Event -> Prop) (m : M A) : Prop :=
  forall w, exists ext, trace (snd (m w)) = trace w ++ ext /\ Forall P ext.

Definition anyEvent (ev : Event) : Prop := True.

Definition notLinkCall (ev : Event) : Prop := ~ isLinkCall ev.

(** [startsWith ev m]: whatever the world, the first thing [m] does is to
    emit [ev]. *)
Definition startsWith {A} (ev : Event) (m : M A) : Prop :=
  forall w, exists after, trace (snd (m w)) = trace w ++ ev :: after.

(** [addsAtMost year CollectiveId before after]: from [before] to [after]
    the rows of every key are as many as they were, except that the tax form
    of the account for the year may have got its first row. *)
Definition addsAtMost (year CollectiveId : Z) (before after : list LegalDocument.t)
  : Prop :=
  forall t y c,
    length (rowsFor t y c after) = length (rowsFor t y c before)
    \/ (t = US_TAX_FORM /\ y = year /\ c = CollectiveId
        /\ rowsFor t y c before = [] /\ length (rowsFor t y c after) = 1%nat).

(** At most one row for each account, year and document type. *)
Definition uniquePerKey (table : list LegalDocument.t) : Prop :=
  forall t y c, (length (rowsFor t y c table) <= 1)%nat.

(** [movesTable R m]: whatever the world, [m] takes the table to one that
    is related to it by [R]. *)
Definition movesTable {A} (R : list LegalDocument.t -> list LegalDocument.t -> Prop)
    (m : M A) : Prop :=
  forall w, R (legalDocuments w) (legalDocuments (snd (m w))).

(** What a run may send, and to whom: the request to HelloWorks has one
    participant, of type e-mail, who is one of the eligible admins; the
    e-mail is the tax-form request, to one of the eligible admins. *)
Definition toEligibleAdmin (env : Env) (account : Collective.t) (ev : Event) : Prop :=
  match ev with
  | CreateInstanceCall request =>
      CreateInstance.delegatedAuthentication request = true
      /\ exists u name,
           In u (eligibleAdmins env account)
           /\ CreateInstance.participants request
              = [("participant_swVuvW", Participant.mk "email" (User.email u) name)]
  | EmailSendCall template to _ =>
      template = "tax-form-request"
      /\ exists u, In u (eligibleAdmins env account) /\ User.email u = to
  | _ => True
  end.



(** [documentOf c year table d]: [d] is a legal document of the collective
    for the year, in the table. *)
Definition documentOf (c : Collective.t) (year : Z) (table : list LegalDocument.t)
    (d : LegalDocument.t) : Prop :=
  In d table
  /\ LegalDocument.CollectiveId d = Collective.id c
  /\ LegalDocument.year d = year.

(** ** Sample data *)

Definition alice : User.t :=
  User.mk 5 "alice@opencollective.com"
    (Collective.mk 50 "USER" (JsString.ascii "alice") (Some (JsString.ascii "Alice")) None).

Definition bob : User.t :=
  User.mk 9 "bob@opencollective.com"
    (Collective.mk 90 "USER" (JsString.ascii "bob") (Some (JsString.ascii "Bob")) None).

(** Alice submitted an expense for the account at time 50 and Jane at time
    100; the third expense, the latest, was submitted from another account. *)
Definition sampleExpenses : list Expense.t :=
  [Expense.mk 1 50 10 5; Expense.mk 2 100 10 7; Expense.mk 3 200 11 9].

Definition acme : Collective.t :=
  Collective.mk 10 "ORGANIZATION"
    (JsString.ascii "open-collective-foundation-for-the-commons")
    (Some (JsString.ascii "Acme")) None.

Definition jane : User.t :=
  User.mk 7 "jane@opencollective.com"
    (Collective.mk 70 "USER" (JsString.ascii "jane-doe") (Some (JsString.ascii "Jane Doe"))
       None).

(** An empty table, a database that accepts every write, nothing observed. *)
Definition emptyWorld : World := mkWorld [] [] [].

Definition instanceOne : json := JObj [("id", JNum 1)].

(** The world after [{ helloWorks: { instance: { id: 1 } } }] was saved for
    Acme and 2024. *)
Definition worldWithInstance : World :=
  snd (saveDocumentStatus acme 2024 REQUESTED
         (JObj [("helloWorks", JObj [("instance", instanceOne)])]) emptyWorld).

(** Acme and Jane's profile both crossed a threshold in 2024; Jane's form
    was received, Acme has no document yet. *)
Definition sampleEnv : Env :=
  mkEnv "production" (fun _ => true) (fun _ => [jane]) sampleExpenses
    [acme; User.collective jane]
    (fun _ year => if year =? 2024 then {[10; 70]} else ∅)
    (fun d => match LegalDocument.requestStatus d with
              | NOT_REQUESTED | ERROR => true
              | _ => false
              end)
    (fun _ _ _ => Resolves)
    (JsError.mk "Cannot read properties of undefined (reading 'url')" "TypeError").

Definition sampleWorld : World :=
  mkWorld [LegalDocument.mk 1 US_TAX_FORM 2024 70 RECEIVED JNull] [] [].

(** An account whose only admin has an external address, outside
    production. *)
Definition stagingEnv : Env :=
  mkEnv "staging" (fun email => String.eqb email "jane@opencollective.com")
    (fun _ => [User.mk 11 "carol@example.com"
                 (Collective.mk 110 "USER" (JsString.ascii "carol")
                    (Some (JsString.ascii "Carol")) None)])
    [] [acme] (fun _ _ => {[10]}) (fun _ => true) (fun _ _ _ => Resolves)
    (JsError.mk "Cannot read properties of undefined (reading 'url')" "TypeError").

(** A client that is never reached in the runs it is used for. *)
Definition unreachableClient : HelloWorks.t :=
  HelloWorks.mk (fun _ => Throw (JsError.mk "offline" ""))
                (fun _ _ => Throw (JsError.mk "offline" "")).

Definition callbackUrl0 : string := "https://opencollective.com/helloworks/callback".
Definition workflowId0 : string := "workflow-w9".

Definition stepOne : Step.t := Step.mk "step_1" "https://helloworks.example/step_1".
Definition instanceA : Instance.t := Instance.mk "instance_a" [stepOne].

Definition timeoutError : JsError.t := JsError.mk "Request timed out" "Error: Request timed out".

(** HelloWorks creates the instance and hands out authenticated links. *)
Definition workingClient : HelloWorks.t :=
  HelloWorks.mk (fun _ => Normal instanceA)
                (fun _ _ => Normal "https://helloworks.example/signed/step_1").

(** HelloWorks creates the instance but fails to hand out the link. *)
Definition noLinkClient : HelloWorks.t :=
  HelloWorks.mk (fun _ => Normal instanceA) (fun _ _ => Throw timeoutError).

(** HelloWorks fails to create the instance. *)
Definition failingClient : HelloWorks.t :=
  HelloWorks.mk (fun _ => Throw timeoutError) (fun _ _ => Throw timeoutError).

(** As [sampleEnv], with a mail transport whose promise is rejected. *)
Definition rejectingMailEnv : Env :=
  mkEnv "production" (fun _ => true) (fun _ => [jane]) sampleExpenses
    [acme; User.collective jane]
    (fun _ year => if year =? 2024 then {[10; 70]} else ∅)
    (shouldBeRequested sampleEnv)
    (fun _ _ _ => Rejects timeoutError)
    (TypeError_url sampleEnv).

(** A database that accepts two writes and rejects the third. *)
Definition thirdWriteFails : World :=
  mkWorld [] [None; None; Some (JsError.mk "deadlock detected" "SequelizeDatabaseError")] [].

(** HelloWorks creates an instance that has no step. *)
Definition noStepClient : HelloWorks.t :=
  HelloWorks.mk (fun _ => Normal (Instance.mk "instance_b" []))
                (fun _ _ => Normal "https://helloworks.example/signed").



(** * Properties *)

(** ** Strings *)


Lemma length_app_units (a b : JsString.t) :
  JsString.length (a ++ b) = (JsString.length a + JsString.length b)%nat.
Proof.
  induction a as [|c a IH]; [reflexivity|].
  change (JsString.length ((c :: a) ++ b))
    with (S (List.length (JsString.attached c)) + JsString.length (a ++ b))%nat.
  change (JsString.length (c :: a))
    with (S (List.length (JsString.attached c)) + JsString.length a)%nat.
  rewrite IH. lia.
Qed.








(** A name of 80 letters is cut to exactly 64 symbols; a Cyrillic name of 40
    letters (80 bytes in UTF-8, 40 code units) is left as it is. *)
Example truncate_80_to_64 :
  JsString.size (truncate (repeat (JsString.mkSymbol 97 []) 80) 64) = 64%nat.
Proof. reflexivity. Qed.

Example truncate_cyrillic_40 :
  truncate (repeat (JsString.mkSymbol 1055 []) 40) 64
  = repeat (JsString.mkSymbol 1055 []) 40.
Proof. reflexivity. Qed.

(** ** Thresholds *)

(** C2: a form is required exactly when the other total reaches the general
    threshold or the PayPal total reaches the PayPal threshold; one unit
    below both thresholds no form is required. *)
Theorem amountsRequireTaxForm_iff
    (US_TAX_FORM_THRESHOLD US_TAX_FORM_THRESHOLD_FOR_PAYPAL paypalTotal otherTotal : Z) :
  (amountsRequireTaxForm US_TAX_FORM_THRESHOLD US_TAX_FORM_THRESHOLD_FOR_PAYPAL
     paypalTotal otherTotal = true
   <-> (otherTotal >= US_TAX_FORM_THRESHOLD
        \/ paypalTotal >= US_TAX_FORM_THRESHOLD_FOR_PAYPAL))
  /\ amountsRequireTaxForm US_TAX_FORM_THRESHOLD US_TAX_FORM_THRESHOLD_FOR_PAYPAL
       (US_TAX_FORM_THRESHOLD_FOR_PAYPAL - 1) (US_TAX_FORM_THRESHOLD - 1) = false.
Proof.
  unfold amountsRequireTaxForm. split.
  - rewrite orb_true_iff, !Z.leb_le. lia.
  - apply orb_false_iff. split; apply Z.leb_gt; lia.
Qed.

(** C10: raising either total never turns a required form into one that is
    not required. *)
Theorem amountsRequireTaxForm_monotone
    (US_TAX_FORM_THRESHOLD US_TAX_FORM_THRESHOLD_FOR_PAYPAL : Z)
    (paypalTotal paypalTotal' otherTotal otherTotal' : Z) :
  paypalTotal <= paypalTotal' ->
  otherTotal <= otherTotal' ->
  amountsRequireTaxForm US_TAX_FORM_THRESHOLD US_TAX_FORM_THRESHOLD_FOR_PAYPAL
    paypalTotal otherTotal = true ->
  amountsRequireTaxForm US_TAX_FORM_THRESHOLD US_TAX_FORM_THRESHOLD_FOR_PAYPAL
    paypalTotal' otherTotal' = true.
Proof.
  unfold amountsRequireTaxForm. intros Hp Ho.
  rewrite !orb_true_iff, !Z.leb_le. lia.
Qed.

(** With cut-offs of 600 and 20000 dollars in cents: 700 dollars of other
    payouts require a form, and still do once 50 dollars of PayPal payouts
    and 100 more dollars are added. *)
Lemma amountsRequireTaxForm_monotone_witness :
  amountsRequireTaxForm 60000 2000000 5000 80000 = true.
Proof.
  apply (amountsRequireTaxForm_monotone 60000 2000000 0 5000 70000 80000).
  - lia.
  - lia.
  - reflexivity.
Defined.

(** ** Participant name *)




(** ** Contact resolution *)

Lemma expenseWhere_attributable account adminUsers e :
  expenseWhere account adminUsers e = true <-> attributable account adminUsers e.
Proof.
  unfold expenseWhere, attributable.
  rewrite andb_true_iff, Z.eqb_eq, existsb_exists. split.
  - intros [Hfrom (uid & Hin & Heq)]. split; [assumption|].
    apply in_map_iff in Hin as (u & Hid & Hu).
    exists u. apply Z.eqb_eq in Heq. split; [assumption | congruence].
  - intros [Hfrom (u & Hu & Hid)]. split; [assumption|].
    exists (User.id u). split; [now apply in_map | now apply Z.eqb_eq].
Qed.

Lemma array_find_some {A} (pred : A -> bool) (l : list A) :
  (exists x, In x l /\ pred x = true) ->
  exists y, array_find pred l = Some y /\ In y l /\ pred y = true.
Proof.
  induction l as [|a l IH]; intros (x & Hin & Hp).
  - destruct Hin.
  - simpl. destruct (pred a) eqn:Ha.
    + exists a. repeat split; [now left | assumption].
    + destruct Hin as [->|Hin]; [congruence|].
      destruct IH as (y & Hy & Hyin & Hyp); [now exists x|].
      exists y. repeat split; [assumption | now right | assumption].
Qed.

(** Folding [newer] from a candidate keeps a row that is at least as recent
    as the candidate and as every row that was folded in. *)
Lemma fold_newer_some (l : list Expense.t) (b : Expense.t) :
  exists e, fold_left newer l (Some b) = Some e
    /\ (e = b \/ In e l)
    /\ Expense.createdAt b <= Expense.createdAt e
    /\ forall e', In e' l -> Expense.createdAt e' <= Expense.createdAt e.
Proof.
  revert b. induction l as [|a l IH]; intros b; simpl.
  - exists b. repeat split; [now left | lia | intros e' []].
  - destruct (Z.ltb_spec (Expense.createdAt b) (Expense.createdAt a)).
    + destruct (IH a) as (e & He & Hin & Hle & Hmax). exists e.
      repeat split; [assumption | | lia |].
      * destruct Hin as [->|Hin]; right; [now left | now right].
      * intros e' [<-|Hin']; [assumption | now apply Hmax].
    + destruct (IH b) as (e & He & Hin & Hle & Hmax). exists e.
      repeat split; [assumption | | lia |].
      * destruct Hin as [->|Hin]; [now left | right; now right].
      * intros e' [<-|Hin']; [lia | now apply Hmax].
Qed.

(** [findOneLatest] answers [None] only when no row matches, and otherwise
    a matching row that no matching row is more recent than. *)
Lemma findOneLatest_spec (where_ : Expense.t -> bool) (table : list Expense.t) :
  match findOneLatest where_ table with
  | None => forall e, In e table -> where_ e = false
  | Some e =>
      In e table /\ where_ e = true
      /\ forall e', In e' table -> where_ e' = true ->
                    Expense.createdAt e' <= Expense.createdAt e
  end.
Proof.
  unfold findOneLatest.
  destruct (List.filter where_ table) as [|b l] eqn:Hf.
  - simpl. intros e Hin. destruct (where_ e) eqn:He; [|reflexivity].
    assert (In e (List.filter where_ table)) as Hc by (apply filter_In; now split).
    rewrite Hf in Hc. destruct Hc.
  - simpl. destruct (fold_newer_some l b) as (e & -> & Hin & Hle & Hmax).
    assert (In e (List.filter where_ table)) as He.
    { rewrite Hf. destruct Hin as [->|Hin]; [now left | now right]. }
    apply filter_In in He as [He1 He2]. repeat split; [assumption..|].
    intros e' Hin' Hw'.
    assert (In e' (List.filter where_ table)) as He' by (apply filter_In; now split).
    rewrite Hf in He'. destruct He' as [<-|He']; [assumption | now apply Hmax].
Qed.

(** C3: with several admins, the contact is the admin who submitted the most
    recent expense of the account submitted by one of them, and the first
    admin when there is no such expense; a single admin is the contact
    whatever the expenses; without admins there is no contact. *)
Theorem getMainAdminToContact_spec (expenses : list Expense.t)
    (account : Collective.t) (adminUsers : list User.t) :
  ((1 < length adminUsers)%nat ->
   (exists e, In e expenses /\ attributable account adminUsers e) ->
   exists e u,
     In e expenses /\ attributable account adminUsers e
     /\ (forall e', In e' expenses -> attributable account adminUsers e' ->
                    Expense.createdAt e' <= Expense.createdAt e)
     /\ getMainAdminToContact expenses account adminUsers = Some u
     /\ In u adminUsers /\ User.id u = Expense.UserId e)
  /\ ((1 < length adminUsers)%nat ->
      (forall e, In e expenses -> ~ attributable account adminUsers e) ->
      getMainAdminToContact expenses account adminUsers = head adminUsers
      /\ exists u rest, adminUsers = u :: rest)
  /\ (forall u, adminUsers = [u] ->
                getMainAdminToContact expenses account adminUsers = Some u)
  /\ (adminUsers = [] -> getMainAdminToContact expenses account adminUsers = None).
Proof.
  split; [|split; [|split]].
  - intros Hlen (e0 & Hin0 & Hattr0). unfold getMainAdminToContact.
    destruct (Nat.ltb_spec 1 (length adminUsers)); [|lia].
    pose proof (findOneLatest_spec (expenseWhere account adminUsers) expenses) as Hspec.
    destruct (findOneLatest (expenseWhere account adminUsers) expenses) as [e|].
    + destruct Hspec as (Hin & Hwhere & Hmax).
      apply expenseWhere_attributable in Hwhere as Hattr.
      destruct Hattr as [Hfrom (a & Ha & Hid)].
      destruct (array_find_some (fun u => User.id u =? Expense.UserId e) adminUsers)
        as (u & -> & Hu & Hpred).
      { exists a. split; [assumption | now apply Z.eqb_eq]. }
      exists e, u. repeat split; try assumption.
      * now exists a.
      * intros e' Hin' Hattr'. apply Hmax; [assumption|].
        now apply expenseWhere_attributable.
      * now apply Z.eqb_eq.
    + specialize (Hspec e0 Hin0).
      apply expenseWhere_attributable in Hattr0. congruence.
  - intros Hlen Hnone. split.
    + unfold getMainAdminToContact.
      destruct (Nat.ltb_spec 1 (length adminUsers)); [|lia].
      pose proof (findOneLatest_spec (expenseWhere account adminUsers) expenses) as Hspec.
      destruct (findOneLatest (expenseWhere account adminUsers) expenses) as [e|].
      * destruct Hspec as (Hin & Hwhere & _).
        apply expenseWhere_attributable in Hwhere. now destruct (Hnone e Hin).
      * reflexivity.
    + destruct adminUsers as [|u rest]; [simpl in Hlen; lia | now exists u, rest].
  - intros u ->. reflexivity.
  - intros ->. reflexivity.
Qed.

(** Three admins, the second of whom submitted the latest expense of the
    account. *)
Lemma getMainAdminToContact_spec_witness :
  exists e u,
    In e sampleExpenses /\ attributable acme [alice; jane; bob] e
    /\ (forall e', In e' sampleExpenses -> attributable acme [alice; jane; bob] e' ->
                   Expense.createdAt e' <= Expense.createdAt e)
    /\ getMainAdminToContact sampleExpenses acme [alice; jane; bob] = Some u
    /\ In u [alice; jane; bob] /\ User.id u = Expense.UserId e.
Proof.
  apply (proj1 (getMainAdminToContact_spec sampleExpenses acme [alice; jane; bob])).
  - simpl. lia.
  - exists (Expense.mk 2 100 10 7). split.
    + simpl. tauto.
    + split; [reflexivity|]. exists jane. split; [simpl; tauto | reflexivity].
Defined.

Example getMainAdminToContact_second_of_three :
  getMainAdminToContact sampleExpenses acme [alice; jane; bob] = Some jane.
Proof. reflexivity. Qed.

Example getMainAdminToContact_no_expense :
  getMainAdminToContact [] acme [alice; jane; bob] = Some alice.
Proof. reflexivity. Qed.

(** ** Running the monad *)

Lemma bind_normal {A B} (m : M A) (k : A -> M B) (w w1 : World) (a : A) :
  m w = (Normal a, w1) -> bind m k w = k a w1.
Proof. intros H. unfold bind. now rewrite H. Qed.

Lemma bind_throw {A B} (m : M A) (k : A -> M B) (w w1 : World) (e : JsError.t) :
  m w = (Throw e, w1) -> bind m k w = (Throw e, w1).
Proof. intros H. unfold bind. now rewrite H. Qed.

Lemma try_catch_normal {A} (m : M A) (h : JsError.t -> M A) (w w1 : World) (a : A) :
  m w = (Normal a, w1) -> try_catch m h w = (Normal a, w1).
Proof. intros H. unfold try_catch. now rewrite H. Qed.

Lemma try_catch_throw {A} (m : M A) (h : JsError.t -> M A) (w w1 : World)
    (e : JsError.t) :
  m w = (Throw e, w1) -> try_catch m h w = h e w1.
Proof. intros H. unfold try_catch. now rewrite H. Qed.

(** Inside a [try] block, a statement that completes hands over to the rest
    of the block, and one that throws hands over to the handler. *)
Lemma try_catch_bind_normal {A B} (m : M A) (k : A -> M B) (h : JsError.t -> M B)
    (w w1 : World) (a : A) :
  m w = (Normal a, w1) -> try_catch (bind m k) h w = try_catch (k a) h w1.
Proof. intros H. unfold try_catch, bind. now rewrite H. Qed.

Lemma try_catch_bind_throw {A B} (m : M A) (k : A -> M B) (h : JsError.t -> M B)
    (w w1 : World) (e : JsError.t) :
  m w = (Throw e, w1) -> try_catch (bind m k) h w = h e w1.
Proof. intros H. unfold try_catch, bind. now rewrite H. Qed.

(** ** What a computation adds to the trace *)

Create HintDb emits discriminated.

Lemma emits_weaken {A} (P Q : Event -> Prop) (m : M A) :
  (forall ev, P ev -> Q ev) -> emits P m -> emits Q m.
Proof.
  intros HPQ Hm w. destruct (Hm w) as (ext & Htrace & Hall).
  exists ext. split; [assumption|]. eapply Forall_impl; eassumption.
Qed.

Lemma emits_ret {A} (P : Event -> Prop) (a : A) : emits P (ret a).
Proof. intros w. exists []. simpl. now rewrite app_nil_r. Qed.

Lemma emits_throw {A} (P : Event -> Prop) (e : JsError.t) : emits P (@throw A e).
Proof. intros w. exists []. simpl. now rewrite app_nil_r. Qed.

Lemma emits_lift {A} (P : Event -> Prop) (c : completion A) : emits P (lift c).
Proof. intros w. exists []. simpl. now rewrite app_nil_r. Qed.

Lemma emits_settle {A} (P : Event -> Prop) (p : promise A) : emits P (settle p).
Proof. destruct p; [apply emits_ret | apply emits_throw]. Qed.

Lemma emits_emit (P : Event -> Prop) (ev : Event) : P ev -> emits P (emit ev).
Proof. intros Hev w. exists [ev]. simpl. split; [reflexivity | now constructor]. Qed.

Lemma emits_bind {A B} (P : Event -> Prop) (m : M A) (k : A -> M B) :
  emits P m -> (forall a, emits P (k a)) -> emits P (bind m k).
Proof.
  intros Hm Hk w. unfold bind.
  destruct (Hm w) as (ext1 & H1 & F1).
  destruct (m w) as [[a|e] w1]; simpl in H1.
  - destruct (Hk a w1) as (ext2 & H2 & F2). exists (ext1 ++ ext2).
    rewrite H2, H1, app_assoc. split; [reflexivity | now apply Forall_app].
  - exists ext1. now split.
Qed.

Lemma emits_try_catch {A} (P : Event -> Prop) (m : M A) (h : JsError.t -> M A) :
  emits P m -> (forall e, emits P (h e)) -> emits P (try_catch m h).
Proof.
  intros Hm Hh w. unfold try_catch.
  destruct (Hm w) as (ext1 & H1 & F1).
  destruct (m w) as [[a|e] w1]; simpl in H1.
  - exists ext1. now split.
  - destruct (Hh e w1) as (ext2 & H2 & F2). exists (ext1 ++ ext2).
    rewrite H2, H1, app_assoc. split; [reflexivity | now apply Forall_app].
Qed.

Lemma emits_db_write (P : Event -> Prop) : emits P db_write.
Proof.
  intros w. exists []. unfold db_write.
  destruct (faults w) as [|[e|] rest]; simpl; now rewrite app_nil_r.
Qed.

#[export] Hint Resolve emits_ret emits_throw emits_lift emits_settle emits_emit
  emits_bind emits_try_catch emits_db_write : emits.

Lemma emits_findOrCreate (P : Event -> Prop) documentType year CollectiveId :
  (forall row, P (Persisted row)) -> emits P (findOrCreate documentType year CollectiveId).
Proof.
  intros HP. unfold findOrCreate. apply emits_bind; [apply emits_db_write|].
  intros _ w. destruct (array_find _ _); simpl.
  - exists []. now rewrite app_nil_r.
  - eexists [_]. split; [reflexivity | now constructor].
Qed.

Lemma emits_update (P : Event -> Prop) doc f :
  (forall row, P (Persisted row)) -> emits P (update doc f).
Proof.
  intros HP. unfold update. apply emits_bind; [apply emits_db_write|].
  intros _ w. simpl. eexists [_]. split; [reflexivity | now constructor].
Qed.

Lemma emits_saveDocumentStatus (P : Event -> Prop) account year status data :
  (forall row, P (Persisted row)) -> emits P (saveDocumentStatus account year status data).
Proof.
  intros HP. unfold saveDocumentStatus.
  apply emits_bind; [now apply emits_findOrCreate | intros; now apply emits_update].
Qed.

#[export] Hint Resolve emits_findOrCreate emits_update emits_saveDocumentStatus : emits.

Lemma emits_recordFailure (P : Event -> Prop) account mainUser year error :
  (forall row, P (Persisted row)) -> (forall level msg, P (Logged level msg)) ->
  emits P (recordFailure account mainUser year error).
Proof.
  intros HP HL. unfold recordFailure, logger. auto 10 with emits.
Qed.

Lemma emits_emailLib_send_call (P : Event -> Prop) env template to data :
  P (EmailSendCall template to data) ->
  emits P (emailLib_send_call env template to data).
Proof.
  intros HP. unfold emailLib_send_call.
  apply emits_bind; [now apply emits_emit|].
  intros _. destruct (emailLib_send env template to data); auto with emits.
Qed.

(** ** The table *)

Lemma array_find_found {A} (pred : A -> bool) (l : list A) (x : A) :
  array_find pred l = Some x -> In x l /\ pred x = true.
Proof.
  induction l as [|a l IH]; simpl; [discriminate|].
  destruct (pred a) eqn:Ha.
  - intros [= <-]. split; [now left | assumption].
  - intros H. destruct (IH H). split; [now right | assumption].
Qed.

Lemma array_find_none {A} (pred : A -> bool) (l : list A) :
  array_find pred l = None -> List.filter pred l = [].
Proof.
  induction l as [|a l IH]; simpl; [reflexivity|].
  destruct (pred a); [discriminate | assumption].
Qed.

Lemma sameKey_true t y c (d : LegalDocument.t) :
  sameKey t y c d = true
  <-> LegalDocument.documentType d = t /\ LegalDocument.year d = y
      /\ LegalDocument.CollectiveId d = c.
Proof.
  unfold sameKey. rewrite !andb_true_iff, bool_decide_eq_true, !Z.eqb_eq. tauto.
Qed.

Lemma sameKey_assign documentType year CollectiveId f row :
  sameKey documentType year CollectiveId (LegalDocument.assign f row)
  = sameKey documentType year CollectiveId row.
Proof. reflexivity. Qed.

(** Assigning columns other than the key to some rows keeps the rows of
    every key as many as they were. *)
Lemma rowsFor_map_assign documentType year CollectiveId f (keep : LegalDocument.t -> bool)
    (table : list LegalDocument.t) :
  length (rowsFor documentType year CollectiveId
            (map (fun row => if keep row then LegalDocument.assign f row else row) table))
  = length (rowsFor documentType year CollectiveId table).
Proof.
  unfold rowsFor. induction table as [|row table IH]; simpl; [reflexivity|].
  assert (sameKey documentType year CollectiveId
            (if keep row then LegalDocument.assign f row else row)
          = sameKey documentType year CollectiveId row) as ->
    by (destruct (keep row); reflexivity).
  destruct (sameKey documentType year CollectiveId row); simpl; now rewrite IH.
Qed.

(** On a database that accepts its writes, [saveDocumentStatus] returns the
    row of the key with the status and the data it was given. *)
Lemma saveDocumentStatus_accepted account year status data (w : World) :
  faults w = [] ->
  exists doc table created,
    saveDocumentStatus account year status data w
    = (Normal doc, mkWorld table [] (trace w ++ created ++ [Persisted doc]))
    /\ Forall isCreation created
    /\ sameKey US_TAX_FORM year (Collective.id account) doc = true
    /\ LegalDocument.requestStatus doc = status
    /\ LegalDocument.data doc = data
    /\ In doc table
    /\ length (rowsFor US_TAX_FORM year (Collective.id account) table)
       = Nat.max 1 (length (rowsFor US_TAX_FORM year (Collective.id account)
                              (legalDocuments w))).
Proof.
  intros Hfaults. destruct w as [table0 fs tr]. simpl in Hfaults. subst fs.
  unfold saveDocumentStatus, findOrCreate, update, bind, db_write. simpl.
  destruct (array_find (sameKey US_TAX_FORM year (Collective.id account)) table0)
    as [doc|] eqn:Hfind; simpl.
  - apply array_find_found in Hfind as [Hin Hkey].
    eexists _, _, []. split; [reflexivity|].
    repeat split; try assumption; try constructor.
    + apply in_map_iff. exists doc. split; [now rewrite Z.eqb_refl | assumption].
    + rewrite (rowsFor_map_assign _ _ _ _ (fun row => LegalDocument.id row =? LegalDocument.id doc)).
      assert (In doc (rowsFor US_TAX_FORM year (Collective.id account) table0)) as Hrow
        by (apply filter_In; now split).
      destruct (rowsFor US_TAX_FORM year (Collective.id account) table0);
        [destruct Hrow | simpl; lia].
  - apply array_find_none in Hfind.
    eexists _, _, [_]. split; [rewrite <- app_assoc; reflexivity|].
    repeat split; try (constructor; [now split | constructor]).
    + unfold sameKey. simpl. rewrite !Z.eqb_refl. reflexivity.
    + apply in_map_iff. eexists. split; [|apply in_or_app; right; now left].
      simpl. now rewrite Z.eqb_refl.
    + rewrite (rowsFor_map_assign _ _ _ _
                 (fun row => LegalDocument.id row =? nextId table0)).
      unfold rowsFor in *. rewrite List.filter_app, Hfind. simpl.
      unfold sameKey. simpl. rewrite !Z.eqb_refl. reflexivity.
Qed.

(** Whatever the database answers, a call that returns a document did what
    it does on a database that accepts its writes. *)
Lemma saveDocumentStatus_returns account year status data (w w' : World)
    (doc : LegalDocument.t) :
  saveDocumentStatus account year status data w = (Normal doc, w') ->
  saveDocumentStatus account year status data
    (mkWorld (legalDocuments w) [] (trace w))
  = (Normal doc, mkWorld (legalDocuments w') [] (trace w')).
Proof.
  destruct w as [table fs tr].
  unfold saveDocumentStatus, findOrCreate, update, bind, db_write. simpl.
  destruct fs as [|[e1|] fs]; simpl; try discriminate.
  all: destruct (array_find (sameKey US_TAX_FORM year (Collective.id account)) table)
         as [found|]; simpl.
  all: try (destruct fs as [|[e2|] fs]; simpl); try discriminate.
  all: intros [= <- <-]; reflexivity.
Qed.

(** The snapshot of an instance has no property that cloning drops. *)
Lemma clone_toJSON (instance : Instance.t) :
  clone (Instance.toJSON instance) = Instance.toJSON instance.
Proof.
  unfold Instance.toJSON.
  change (clone (JObj [("id", JStr (Instance.id instance));
                       ("steps",
                        JArr (map (fun s => JObj [("step", JStr (Step.step s));
                                                  ("url", JStr (Step.url s))])
                                  (Instance.steps instance)))]))
    with (JObj [("id", JStr (Instance.id instance));
                ("steps",
                 JArr (map clone
                         (map (fun s => JObj [("step", JStr (Step.step s));
                                              ("url", JStr (Step.url s))])
                              (Instance.steps instance))))]).
  rewrite map_map. reflexivity.
Qed.

(** The merge of the link into the data that holds the instance. *)
Lemma deepMerge_instance_link (instance : Instance.t) (documentLink : string) :
  deepMerge (JObj [("helloWorks", JObj [("instance", Instance.toJSON instance)])])
            (JObj [("helloWorks", JObj [("documentLink", JStr documentLink)])])
  = JObj [("helloWorks", JObj [("instance", Instance.toJSON instance);
                               ("documentLink", JStr documentLink)])].
Proof.
  change (deepMerge (JObj [("helloWorks", JObj [("instance", Instance.toJSON instance)])])
            (JObj [("helloWorks", JObj [("documentLink", JStr documentLink)])]))
    with (JObj [("helloWorks", JObj [("instance", clone (Instance.toJSON instance));
                                     ("documentLink", JStr documentLink)])]).
  now rewrite clone_toJSON.
Qed.

(** Saving [{ helloWorks: { documentLink: "X" } }] after
    [{ helloWorks: { instance: { id: 1 } } }] leaves a record whose data has
    the link and no instance. *)
Lemma saveDocumentStatus_merge_counterexample :
  saveDocumentStatus acme 2024 REQUESTED
    (JObj [("helloWorks", JObj [("documentLink", JStr "X")])]) worldWithInstance
  = (Normal (LegalDocument.mk 1 US_TAX_FORM 2024 10 REQUESTED
               (JObj [("helloWorks", JObj [("documentLink", JStr "X")])])),
     mkWorld
       [LegalDocument.mk 1 US_TAX_FORM 2024 10 REQUESTED
          (JObj [("helloWorks", JObj [("documentLink", JStr "X")])])]
       []
       [Persisted (LegalDocument.mk 1 US_TAX_FORM 2024 10 NOT_REQUESTED JNull);
        Persisted (LegalDocument.mk 1 US_TAX_FORM 2024 10 REQUESTED
                     (JObj [("helloWorks", JObj [("instance", instanceOne)])]));
        Persisted (LegalDocument.mk 1 US_TAX_FORM 2024 10 REQUESTED
                     (JObj [("helloWorks", JObj [("documentLink", JStr "X")])]))])
  /\ storedInstance (JObj [("helloWorks", JObj [("documentLink", JStr "X")])]) = None.
Proof. split; reflexivity. Qed.

(** ** Eligibility *)

Lemma legalDocumentsOf_spec (c : Collective.t) (year : Z) (table : list LegalDocument.t)
    (d : LegalDocument.t) :
  In d (legalDocumentsOf c year table) <-> documentOf c year table d.
Proof.
  unfold legalDocumentsOf, documentOf.
  rewrite filter_In, andb_true_iff, !Z.eqb_eq. tauto.
Qed.

(** C8: every account returned is a loaded candidate, comes with exactly
    its documents of the year, and has no such document or one that should be
    requested; every loaded candidate of that kind is returned; an account
    that has documents for the year, none of which should be requested, is
    not returned; without candidates the answer is empty and the accounts are
    not loaded. *)
Theorem findAccountsThatNeedToBeSentTaxForm_spec (env : Env) (year : Z) (w : World) :
  let candidates := getTaxFormsRequiredForAccounts env None year in
  let documents := fun c => documentOf c year (legalDocuments w) in
  let toBeSent := fun c =>
    (forall d, ~ documents c d)
    \/ exists d, documents c d /\ shouldBeRequested env d = true in
  exists result w',
    findAccountsThatNeedToBeSentTaxForm env year w = (Normal result, w')
    /\ legalDocuments w' = legalDocuments w
    /\ (forall cw,
          In cw result ->
          In (collective cw) (collectives env)
          /\ Collective.id (collective cw) ∈ candidates
          /\ (forall d, In d (included_legalDocuments cw) <-> documents (collective cw) d)
          /\ toBeSent (collective cw))
    /\ (forall c,
          In c (collectives env) -> Collective.id c ∈ candidates -> toBeSent c ->
          exists cw, In cw result /\ collective cw = c)
    /\ (forall c d0,
          documents c d0 ->
          (forall d, documents c d -> shouldBeRequested env d = false) ->
          forall cw, In cw result ->
                     Collective.id (collective cw) <> Collective.id c)
    /\ (candidates = ∅ ->
        result = [] /\ trace w' = trace w ++ [TaxFormsRequiredQuery year]).
Proof.
  cbv zeta.
  assert (forall c,
             needsTaxForm env (mkIncluded c (legalDocumentsOf c year (legalDocuments w)))
             = true
             <-> ((forall d, ~ documentOf c year (legalDocuments w) d)
                  \/ exists d, documentOf c year (legalDocuments w) d
                               /\ shouldBeRequested env d = true)) as Hneeds.
  { intros c. unfold needsTaxForm. simpl.
    rewrite orb_true_iff, Nat.eqb_eq, existsb_exists, length_zero_iff_nil.
    split.
    - intros [Hnil|(d & Hd & Hreq)].
      + left. intros d Hd. apply legalDocumentsOf_spec in Hd. rewrite Hnil in Hd.
        destruct Hd.
      + right. exists d. split; [now apply legalDocumentsOf_spec | assumption].
    - intros [Hnone|(d & Hd & Hreq)].
      + left. destruct (legalDocumentsOf c year (legalDocuments w)) as [|d l] eqn:Hl;
          [reflexivity|].
        destruct (Hnone d). apply legalDocumentsOf_spec. rewrite Hl. now left.
      + right. exists d. split; [now apply legalDocumentsOf_spec | assumption]. }
  assert (forall c c', Collective.id c = Collective.id c' ->
                       forall d, documentOf c year (legalDocuments w) d
                                 <-> documentOf c' year (legalDocuments w) d) as Hsame.
  { intros c c' Hid d. unfold documentOf. now rewrite Hid. }
  unfold findAccountsThatNeedToBeSentTaxForm, Collective_findAll, bind, emit, ret.
  simpl.
  destruct (Nat.eqb_spec (size (getTaxFormsRequiredForAccounts env None year)) 0)
    as [Hempty|Hsome].
  - apply size_empty_iff, leibniz_equiv in Hempty.
    eexists _, _. split; [reflexivity|]. simpl.
    split; [reflexivity|]. split; [|split; [|split]].
    + intros cw [].
    + intros c _ Hin _. rewrite Hempty in Hin. set_solver.
    + intros c d0 _ _ cw [].
    + intros _. split; reflexivity.
  - eexists _, _. split; [reflexivity|]. simpl.
    split; [reflexivity|]. split; [|split; [|split]].
    + intros cw Hin. apply filter_In in Hin as [Hin Hneed].
      apply in_map_iff in Hin as (c & <- & Hc).
      apply filter_In in Hc as [Hc Hid].
      apply bool_decide_eq_true in Hid. apply elem_of_elements in Hid.
      simpl. split; [assumption|]. split; [assumption|].
      split; [intros d; apply legalDocumentsOf_spec | now apply Hneeds].
    + intros c Hc Hid Hsent.
      exists (mkIncluded c (legalDocumentsOf c year (legalDocuments w))).
      split; [|reflexivity].
      apply filter_In. split; [|now apply Hneeds].
      apply in_map_iff. exists c. split; [reflexivity|].
      apply filter_In. split; [assumption|].
      apply bool_decide_eq_true. now apply elem_of_elements.
    + intros c d0 Hd0 Hnone cw Hin Hid. apply filter_In in Hin as [Hin Hneed].
      apply in_map_iff in Hin as (c' & <- & _). simpl in Hid.
      apply Hneeds in Hneed as [Hno|(d & Hd & Hreq)].
      * apply (Hno d0). now apply (Hsame c' c Hid).
      * apply (Hsame c' c Hid) in Hd. rewrite (Hnone d Hd) in Hreq. discriminate.
    + intros Hempty. rewrite Hempty in Hsome. now rewrite size_empty in Hsome.
Qed.

(** Jane's profile, whose form for 2024 was received, is a candidate and is
    not returned; Acme, which has no document, is. *)
Example findAccountsThatNeedToBeSentTaxForm_received_left_out :
  In (LegalDocument.mk 1 US_TAX_FORM 2024 70 RECEIVED JNull) (legalDocuments sampleWorld)
  /\ Collective.id (User.collective jane)
     ∈ getTaxFormsRequiredForAccounts sampleEnv None 2024
  /\ fst (findAccountsThatNeedToBeSentTaxForm sampleEnv 2024 sampleWorld)
     = Normal [mkIncluded acme []].
Proof. split; [now left | split; vm_compute; reflexivity]. Qed.

Example findAccountsThatNeedToBeSentTaxForm_sample :
  fst (findAccountsThatNeedToBeSentTaxForm sampleEnv 2024 sampleWorld)
  = Normal [mkIncluded acme []].
Proof. vm_compute. reflexivity. Qed.

Example findAccountsThatNeedToBeSentTaxForm_no_candidate :
  findAccountsThatNeedToBeSentTaxForm sampleEnv 2023 sampleWorld
  = (Normal [], mkWorld (legalDocuments sampleWorld) [] [TaxFormsRequiredQuery 2023]).
Proof. vm_compute. reflexivity. Qed.

(** ** Admins *)

Lemma skipLogs_logged env account : Forall isLogged (skipLogs env account).
Proof.
  unfold skipLogs. destruct (isProduction env); [constructor|].
  apply List.Forall_forall. intros ev Hin.
  apply in_map_iff in Hin as (user & <- & _). exact I.
Qed.

Lemma filterM_internal env (users : list User.t) (w : World) :
  filterM (fun user =>
             if isEmailInternal env (User.email user) then ret true
             else
               do! logger LogInfo (SkippingUser (User.id user) (User.email user)) in
               ret false)
          users w
  = (Normal (List.filter (fun user => isEmailInternal env (User.email user)) users),
     mkWorld (legalDocuments w) (faults w)
       (trace w
        ++ map (fun user => Logged LogInfo (SkippingUser (User.id user) (User.email user)))
               (List.filter (fun user => negb (isEmailInternal env (User.email user)))
                            users))).
Proof.
  revert w. induction users as [|user users IH]; intros w.
  - simpl. unfold ret. destruct w. simpl. now rewrite app_nil_r.
  - simpl. destruct (isEmailInternal env (User.email user)); simpl.
    + unfold bind at 1. unfold ret at 1.
      erewrite bind_normal by apply IH. reflexivity.
    + unfold bind at 1. unfold bind at 1. unfold logger, emit, ret at 1.
      erewrite bind_normal by apply IH. simpl. now rewrite <- app_assoc.
Qed.

(** [getAdminsForAccount] never fails and never writes: it returns the
    eligible admins and logs the ones it drops. *)
Lemma getAdminsForAccount_run env account (w : World) :
  getAdminsForAccount env account w
  = (Normal (eligibleAdmins env account),
     mkWorld (legalDocuments w) (faults w) (trace w ++ skipLogs env account)).
Proof.
  unfold getAdminsForAccount, eligibleAdmins, skipLogs, isProduction.
  destruct (String.eqb (config_env env) "production").
  - unfold ret. destruct w. simpl. now rewrite app_nil_r.
  - apply filterM_internal.
Qed.

(** ** The request flow *)

(** Without contact the flow logs and returns. *)
Lemma sendHelloWorksUsTaxForm_skip env client account year callbackUrl workflowId
    (w : World) :
  getMainAdminToContact (expenses env) account (eligibleAdmins env account) = None ->
  sendHelloWorksUsTaxForm env client account year callbackUrl workflowId w
  = (Normal Undefined,
     mkWorld (legalDocuments w) (faults w)
       (trace w ++ skipLogs env account
        ++ [Logged LogError
              (NoContactFound (Collective.id account) (Collective.slug account))])).
Proof.
  intros Hnone. unfold sendHelloWorksUsTaxForm.
  erewrite bind_normal by apply getAdminsForAccount_run.
  rewrite Hnone. unfold bind, logger, emit, ret. simpl. now rewrite <- app_assoc.
Qed.

(** C9: when no admin can be contacted, the flow logs and returns
    [undefined]; the table is left as it was and nothing but log lines is
    observed: no workflow instance, no e-mail, no write. *)
Theorem sendHelloWorksUsTaxForm_no_contact (env : Env) (client : HelloWorks.t)
    (account : Collective.t) (year : Z) (callbackUrl workflowId : string) (w : World) :
  getMainAdminToContact (expenses env) account (eligibleAdmins env account) = None ->
  exists logs,
    sendHelloWorksUsTaxForm env client account year callbackUrl workflowId w
    = (Normal Undefined,
       mkWorld (legalDocuments w) (faults w)
         (trace w ++ logs
          ++ [Logged LogError
                (NoContactFound (Collective.id account) (Collective.slug account))]))
    /\ Forall isLogged logs.
Proof.
  intros Hnone. exists (skipLogs env account). split; [|apply skipLogs_logged].
  now apply sendHelloWorksUsTaxForm_skip.
Qed.

Lemma sendHelloWorksUsTaxForm_no_contact_witness :
  exists logs,
    sendHelloWorksUsTaxForm stagingEnv unreachableClient acme 2024
      "https://opencollective.com/callback" "workflow" emptyWorld
    = (Normal Undefined,
       mkWorld [] []
         ([] ++ logs
          ++ [Logged LogError
                (NoContactFound 10 (JsString.ascii "open-collective-foundation-for-the-commons"))]))
    /\ Forall isLogged logs.
Proof.
  apply (sendHelloWorksUsTaxForm_no_contact stagingEnv unreachableClient acme 2024
           "https://opencollective.com/callback" "workflow" emptyWorld).
  reflexivity.
Defined.

(** Stepping through a [try] block whose result is passed on. *)
Lemma in_try_normal {A B C} (m : M A) (k : A -> M B) (h : JsError.t -> M B)
    (k2 : B -> M C) (w w1 : World) (a : A) :
  m w = (Normal a, w1) ->
  bind (try_catch (bind m k) h) k2 w = bind (try_catch (k a) h) k2 w1.
Proof. intros H. unfold bind at 1. now rewrite (try_catch_bind_normal _ _ _ _ _ _ H). Qed.

Lemma in_try_throw {A B C} (m : M A) (k : A -> M B) (h : JsError.t -> M B)
    (k2 : B -> M C) (w w1 : World) (e : JsError.t) :
  m w = (Throw e, w1) ->
  bind (try_catch (bind m k) h) k2 w = bind (h e) k2 w1.
Proof. intros H. unfold bind at 1. now rewrite (try_catch_bind_throw _ _ _ _ _ _ H). Qed.

(** Once a contact is found, the flow is the [try] block with its handler,
    run after the admins were loaded. *)
Lemma sendHelloWorksUsTaxForm_contact env client account year callbackUrl workflowId
    (w : World) (mainUser : User.t) :
  getMainAdminToContact (expenses env) account (eligibleAdmins env account)
  = Some mainUser ->
  sendHelloWorksUsTaxForm env client account year callbackUrl workflowId w
  = bind (try_catch
            (requestTaxForm env client account mainUser year
               (createInstanceRequest account (eligibleAdmins env account) mainUser
                  year callbackUrl workflowId))
            (recordFailure account mainUser year))
         settle
         (mkWorld (legalDocuments w) (faults w) (trace w ++ skipLogs env account)).
Proof.
  intros Hcontact. unfold sendHelloWorksUsTaxForm.
  erewrite bind_normal by apply getAdminsForAccount_run.
  now rewrite Hcontact.
Qed.

(** C7: when the authenticated link cannot be fetched, the flow goes on with
    the URL of the first step: a warning is logged, the record stays
    REQUESTED and receives the fallback link next to the instance, and the
    e-mail is sent with that link. *)
Theorem sendHelloWorksUsTaxForm_link_fallback (env : Env) (client : HelloWorks.t)
    (account : Collective.t) (year : Z) (callbackUrl workflowId : string) (w : World)
    (mainUser : User.t) (instance : Instance.t) (step : Step.t) (rest : list Step.t)
    (e : JsError.t) :
  let adminUsers := eligibleAdmins env account in
  let request :=
    createInstanceRequest account adminUsers mainUser year callbackUrl workflowId in
  let emailData :=
    EmailData.mk (Step.url step)
      (js_or (Collective.name (User.collective mainUser))
             (Collective.legalName (User.collective mainUser)))
      (toString (js_or (js_or (Collective.legalName account) (Collective.name account))
                       (Some (Collective.slug account)))) in
  faults w = [] ->
  getMainAdminToContact (expenses env) account adminUsers = Some mainUser ->
  HelloWorks.createInstance client request = Normal instance ->
  Instance.steps instance = step :: rest ->
  HelloWorks.getAuthenticatedLinkForStep client (Instance.id instance) (Step.step step)
  = Throw e ->
  (forall e', emailLib_send env "tax-form-request" (User.email mainUser) emailData
              <> ThrowsSync e') ->
  exists requested linked table logs created,
    sendHelloWorksUsTaxForm env client account year callbackUrl workflowId w
    = (match emailLib_send env "tax-form-request" (User.email mainUser) emailData with
       | Rejects e' => Throw e'
       | _ => Normal EmailSent
       end,
       mkWorld table []
         (trace w ++ logs
          ++ CreateInstanceCall request :: created
          ++ [Persisted requested;
              GetAuthenticatedLinkCall (Instance.id instance) (Step.step step);
              Logged LogWarn
                (ErrorGettingAuthenticatedLink (Instance.id instance) (JsError.message e));
              Persisted linked;
              EmailSendCall "tax-form-request" (User.email mainUser) emailData]))
    /\ Forall isLogged logs
    /\ Forall isCreation created
    /\ LegalDocument.requestStatus requested = REQUESTED
    /\ LegalDocument.data requested
       = JObj [("helloWorks", JObj [("instance", Instance.toJSON instance)])]
    /\ In linked table
    /\ sameKey US_TAX_FORM year (Collective.id account) linked = true
    /\ LegalDocument.requestStatus linked = REQUESTED
    /\ LegalDocument.data linked
       = JObj [("helloWorks", JObj [("instance", Instance.toJSON instance);
                                    ("documentLink", JStr (Step.url step))])].
Proof.
  cbv zeta. intros Hfaults Hcontact Hcreate Hsteps Hlink Hsend.
  rewrite (sendHelloWorksUsTaxForm_contact _ _ _ _ _ _ _ _ Hcontact).
  unfold requestTaxForm.
  erewrite in_try_normal by reflexivity.
  erewrite in_try_normal by (unfold lift; rewrite Hcreate; reflexivity).
  match goal with
  | |- context [saveDocumentStatus ?a ?y ?s ?d] =>
      destruct (saveDocumentStatus_accepted a y s d
                  (mkWorld (legalDocuments w) (faults w)
                     ((trace w ++ skipLogs env account)
                      ++ [CreateInstanceCall
                            (createInstanceRequest account (eligibleAdmins env account)
                               mainUser year callbackUrl workflowId)])) Hfaults)
        as (requested & table & created & Hsave & Hcreated & Hkey & Hstatus & Hdata
            & Hin & _)
  end.
  erewrite in_try_normal by exact Hsave.
  erewrite in_try_normal by (unfold firstStep; rewrite Hsteps; reflexivity).
  erewrite in_try_normal
    by (unfold try_catch, bind, emit, lift, logger; simpl; rewrite Hlink; reflexivity).
  erewrite in_try_normal by (unfold update, bind, db_write; simpl; reflexivity).
  unfold emailLib_send_call.
  erewrite in_try_normal by reflexivity.
  match goal with
  | |- context [emailLib_send env ?t ?to ?d] =>
      destruct (emailLib_send env t to d) as [|e'|e'] eqn:Hout
  end.
  3: { now destruct (Hsend e'). }
  all: unfold bind, try_catch, ret, settle; simpl.
  all: exists requested,
         (LegalDocument.assign
            (LegalDocument.mkFields None
               (Some (deepMerge (LegalDocument.data requested)
                        (JObj [("helloWorks",
                                JObj [("documentLink", JStr (Step.url step))])]))))
            requested).
  all: eexists _, (skipLogs env account), created.
  all: split; [|split; [apply skipLogs_logged|]].
  all: try (f_equal; f_equal; rewrite <- !app_assoc; reflexivity).
  all: repeat split; try assumption.
  all: try (apply in_map_iff; exists requested;
            split; [now rewrite Z.eqb_refl | assumption]).
  all: unfold LegalDocument.assign;
    cbn [LegalDocument.data LegalDocument.set_data from_option];
    rewrite Hdata; apply deepMerge_instance_link.
Qed.

Lemma sendHelloWorksUsTaxForm_link_fallback_witness :
  exists linked,
    In linked
       (legalDocuments
          (snd (sendHelloWorksUsTaxForm sampleEnv noLinkClient acme 2024
                  callbackUrl0 workflowId0 emptyWorld)))
    /\ LegalDocument.requestStatus linked = REQUESTED
    /\ LegalDocument.data linked
       = JObj [("helloWorks", JObj [("instance", Instance.toJSON instanceA);
                                    ("documentLink", JStr (Step.url stepOne))])].
Proof.
  destruct (sendHelloWorksUsTaxForm_link_fallback sampleEnv noLinkClient acme 2024
              callbackUrl0 workflowId0 emptyWorld jane instanceA stepOne [] timeoutError)
    as (requested & linked & table & logs & created & Hrun & _ & _ & _ & _ & Hin & _
        & Hstatus & Hdata).
  - reflexivity.
  - reflexivity.
  - reflexivity.
  - reflexivity.
  - reflexivity.
  - intros e'. discriminate.
  - exists linked. rewrite Hrun. simpl. repeat split; assumption.
Defined.

(** The handler, on a database that accepts its writes: the error is logged,
    the row of the key becomes an ERROR row whose data is the message and the
    stack, and that row is the result. *)
Lemma recordFailure_accepted account mainUser year error (w1 : World) :
  faults w1 = [] ->
  exists doc table created,
    bind (recordFailure account mainUser year error) settle w1
    = (Normal (Document doc),
       mkWorld table []
         (trace w1
          ++ Logged LogError
               (FailedToInitialize (Collective.id account) (User.email mainUser) error)
             :: created ++ [Persisted doc]))
    /\ Forall isCreation created
    /\ sameKey US_TAX_FORM year (Collective.id account) doc = true
    /\ LegalDocument.requestStatus doc = ERROR
    /\ LegalDocument.data doc
       = JObj [("error", JObj [("message", JStr (JsError.message error));
                               ("stack", JStr (JsError.stack error))])]
    /\ In doc table.
Proof.
  intros Hfaults. unfold recordFailure.
  match goal with
  | |- context [saveDocumentStatus ?a ?y ?s ?d] =>
      destruct (saveDocumentStatus_accepted a y s d
                  (mkWorld (legalDocuments w1) (faults w1)
                     (trace w1
                      ++ [Logged LogError
                            (FailedToInitialize (Collective.id account)
                               (User.email mainUser) error)])) Hfaults)
        as (doc & table & created & Hsave & Hcreated & Hkey & Hstatus & Hdata & Hin & _)
  end.
  exists doc, table, created. split; [|repeat split; assumption].
  unfold bind at 1. unfold bind at 1. unfold logger, emit. unfold bind at 1.
  rewrite Hsave. unfold ret, settle. simpl. now rewrite <- app_assoc.
Qed.

(** X16: an error thrown inside the [try] block, first of all by the
    creation of the workflow instance, is caught: it is logged, the document
    is persisted as ERROR with the message and the stack of the error, and
    that record is returned; when the creation is what failed, no e-mail call
    is observed. *)
Theorem sendHelloWorksUsTaxForm_catches (env : Env) (client : HelloWorks.t)
    (account : Collective.t) (year : Z) (callbackUrl workflowId : string) (w : World)
    (mainUser : User.t) (error : JsError.t) :
  let adminUsers := eligibleAdmins env account in
  let request :=
    createInstanceRequest account adminUsers mainUser year callbackUrl workflowId in
  let failure :=
    Logged LogError
      (FailedToInitialize (Collective.id account) (User.email mainUser) error) in
  let recorded := fun doc =>
    LegalDocument.documentType doc = US_TAX_FORM
    /\ LegalDocument.year doc = year
    /\ LegalDocument.CollectiveId doc = Collective.id account
    /\ LegalDocument.requestStatus doc = ERROR
    /\ LegalDocument.data doc
       = JObj [("error", JObj [("message", JStr (JsError.message error));
                               ("stack", JStr (JsError.stack error))])] in
  getMainAdminToContact (expenses env) account adminUsers = Some mainUser ->
  (faults w = [] ->
   HelloWorks.createInstance client request = Throw error ->
   exists doc table logs created,
     sendHelloWorksUsTaxForm env client account year callbackUrl workflowId w
     = (Normal (Document doc),
        mkWorld table []
          (trace w ++ logs
           ++ CreateInstanceCall request :: failure :: created ++ [Persisted doc]))
     /\ Forall isLogged logs /\ Forall isCreation created
     /\ recorded doc /\ In doc table)
  /\ (forall w1,
        requestTaxForm env client account mainUser year request
          (mkWorld (legalDocuments w) (faults w) (trace w ++ skipLogs env account))
        = (Throw error, w1) ->
        faults w1 = [] ->
        exists doc table created,
          sendHelloWorksUsTaxForm env client account year callbackUrl workflowId w
          = (Normal (Document doc),
             mkWorld table [] (trace w1 ++ failure :: created ++ [Persisted doc]))
          /\ Forall isCreation created
          /\ recorded doc /\ In doc table).
Proof.
  cbv zeta. intros Hcontact.
  assert (forall doc,
             sameKey US_TAX_FORM year (Collective.id account) doc = true ->
             LegalDocument.documentType doc = US_TAX_FORM
             /\ LegalDocument.year doc = year
             /\ LegalDocument.CollectiveId doc = Collective.id account) as Hkeys.
  { intros doc Hkey. unfold sameKey in Hkey.
    apply andb_true_iff in Hkey as [Hkey Hcid].
    apply andb_true_iff in Hkey as [Htype Hyear].
    apply bool_decide_eq_true in Htype. apply Z.eqb_eq in Hyear, Hcid. tauto. }
  rewrite (sendHelloWorksUsTaxForm_contact _ _ _ _ _ _ _ _ Hcontact).
  split.
  - intros Hfaults Hcreate. unfold requestTaxForm.
    erewrite in_try_normal by reflexivity.
    erewrite in_try_throw by (unfold lift; rewrite Hcreate; reflexivity).
    cbn [legalDocuments faults trace].
    destruct (recordFailure_accepted account mainUser year error
                (mkWorld (legalDocuments w) (faults w)
                   ((trace w ++ skipLogs env account)
                    ++ [CreateInstanceCall
                          (createInstanceRequest account (eligibleAdmins env account)
                             mainUser year callbackUrl workflowId)])) Hfaults)
      as (doc & table & created & Hrun & Hcreated & Hkey & Hstatus & Hdata & Hin).
    exists doc, table, (skipLogs env account), created.
    split; [|split; [apply skipLogs_logged|]].
    + rewrite Hrun. f_equal. f_equal. simpl. rewrite <- !app_assoc. reflexivity.
    + destruct (Hkeys doc Hkey) as (? & ? & ?). repeat split; assumption.
  - intros w1 Hthrow Hfaults. unfold bind at 1.
    rewrite (try_catch_throw _ _ _ _ _ Hthrow).
    destruct (recordFailure_accepted account mainUser year error w1 Hfaults)
      as (doc & table & created & Hrun & Hcreated & Hkey & Hstatus & Hdata & Hin).
    exists doc, table, created. unfold bind in Hrun. split; [exact Hrun|].
    destruct (Hkeys doc Hkey) as (? & ? & ?). repeat split; assumption.
Qed.

Lemma sendHelloWorksUsTaxForm_catches_witness :
  exists doc,
    fst (sendHelloWorksUsTaxForm sampleEnv failingClient acme 2024
           callbackUrl0 workflowId0 emptyWorld)
    = Normal (Document doc)
    /\ LegalDocument.requestStatus doc = ERROR
    /\ LegalDocument.data doc
       = JObj [("error", JObj [("message", JStr "Request timed out");
                               ("stack", JStr "Error: Request timed out")])].
Proof.
  destruct (sendHelloWorksUsTaxForm_catches sampleEnv failingClient acme 2024
              callbackUrl0 workflowId0 emptyWorld jane timeoutError)
    as [Hcreation _].
  - reflexivity.
  - destruct Hcreation
      as (doc & table & logs & created & Hrun & _ & _ & (_ & _ & _ & Hstatus & Hdata) & _).
    + reflexivity.
    + reflexivity.
    + exists doc. rewrite Hrun. repeat split; assumption.
Defined.

(** C6, at the failing input: the instance is created, the link is fetched
    and saved, and the promise of [emailLib.send] is rejected.  The promise is
    returned from the [try] block without being awaited, so the handler does
    not run: the function is rejected with the error of the mail transport,
    no ERROR record is written and the record stays REQUESTED. *)
Lemma sendHelloWorksUsTaxForm_email_rejection_counterexample :
  sendHelloWorksUsTaxForm rejectingMailEnv workingClient acme 2024
    callbackUrl0 workflowId0 emptyWorld
  = (Throw timeoutError,
     mkWorld
       [LegalDocument.mk 1 US_TAX_FORM 2024 10 REQUESTED
          (JObj [("helloWorks",
                  JObj [("instance", Instance.toJSON instanceA);
                        ("documentLink",
                         JStr "https://helloworks.example/signed/step_1")])])]
       []
       [CreateInstanceCall
          (createInstanceRequest acme [jane] jane 2024 callbackUrl0 workflowId0);
        Persisted (LegalDocument.mk 1 US_TAX_FORM 2024 10 NOT_REQUESTED JNull);
        Persisted (LegalDocument.mk 1 US_TAX_FORM 2024 10 REQUESTED
                     (JObj [("helloWorks", JObj [("instance", Instance.toJSON instanceA)])]));
        GetAuthenticatedLinkCall "instance_a" "step_1";
        Persisted (LegalDocument.mk 1 US_TAX_FORM 2024 10 REQUESTED
                     (JObj [("helloWorks",
                             JObj [("instance", Instance.toJSON instanceA);
                                   ("documentLink",
                                    JStr "https://helloworks.example/signed/step_1")])]));
        EmailSendCall "tax-form-request" "jane@opencollective.com"
          (EmailData.mk "https://helloworks.example/signed/step_1"
             (Some (JsString.ascii "Jane Doe")) (JsString.ascii "Acme"))]).
Proof. reflexivity. Qed.

(** ** Order of the writes and of the link fetch *)

Lemma anyEvent_any (ev : Event) : anyEvent ev.
Proof. exact I. Qed.

Lemma notLinkCall_Persisted row : notLinkCall (Persisted row).
Proof. intros []. Qed.

Lemma notLinkCall_Logged level msg : notLinkCall (Logged level msg).
Proof. intros []. Qed.

Lemma notLinkCall_CreateInstanceCall request : notLinkCall (CreateInstanceCall request).
Proof. intros []. Qed.

#[export] Hint Resolve anyEvent_any notLinkCall_Persisted notLinkCall_Logged
  notLinkCall_CreateInstanceCall : emits.

Lemma startsWith_emit (ev : Event) : startsWith ev (emit ev).
Proof. intros w. now exists []. Qed.

Lemma startsWith_bind {A B} (ev : Event) (m : M A) (k : A -> M B) :
  startsWith ev m -> (forall a, emits anyEvent (k a)) -> startsWith ev (bind m k).
Proof.
  intros Hm Hk w. unfold bind.
  destruct (Hm w) as (after & H1).
  destruct (m w) as [[a|e] w1]; simpl in H1.
  - destruct (Hk a w1) as (ext & H2 & _). exists (after ++ ext).
    rewrite H2, H1, <- app_assoc. reflexivity.
  - now exists after.
Qed.

Lemma startsWith_try_catch {A} (ev : Event) (m : M A) (h : JsError.t -> M A) :
  startsWith ev m -> (forall e, emits anyEvent (h e)) -> startsWith ev (try_catch m h).
Proof.
  intros Hm Hh w. unfold try_catch.
  destruct (Hm w) as (after & H1).
  destruct (m w) as [[a|e] w1]; simpl in H1.
  - now exists after.
  - destruct (Hh e w1) as (ext & H2 & _). exists (after ++ ext).
    rewrite H2, H1, <- app_assoc. reflexivity.
Qed.

(** Whatever the database answers, [saveDocumentStatus] only observes
    writes, and the row it returns is the last of them. *)
Lemma saveDocumentStatus_run account year status data (w : World) :
  exists ext,
    trace (snd (saveDocumentStatus account year status data w)) = trace w ++ ext
    /\ Forall isPersisted ext
    /\ forall doc,
         fst (saveDocumentStatus account year status data w) = Normal doc ->
         sameKey US_TAX_FORM year (Collective.id account) doc = true
         /\ LegalDocument.requestStatus doc = status
         /\ LegalDocument.data doc = data
         /\ In (Persisted doc) ext.
Proof.
  destruct (emits_saveDocumentStatus isPersisted account year status data
              ltac:(intros; exact I) w) as (ext & Htrace & Hall).
  exists ext. split; [assumption|]. split; [assumption|].
  revert Htrace. destruct w as [table fs tr].
  unfold saveDocumentStatus, findOrCreate, update, bind, db_write. simpl.
  destruct fs as [|[e1|] fs]; simpl; try solve [intros _ doc [=]].
  all: destruct (array_find (sameKey US_TAX_FORM year (Collective.id account)) table)
         as [found|] eqn:Hfind; simpl.
  all: try (destruct fs as [|[e2|] fs]; simpl); try solve [intros _ doc [=]].
  all: intros Htrace doc [= <-].
  all: try (apply array_find_found in Hfind as [_ Hkey]).
  all: repeat split; try assumption;
       try (unfold sameKey; simpl; rewrite !Z.eqb_refl; reflexivity).
  all: rewrite <- ?app_assoc in Htrace; apply app_inv_head in Htrace; subst ext;
       simpl; tauto.
Qed.

Lemma emits_logger (P : Event -> Prop) level msg :
  P (Logged level msg) -> emits P (logger level msg).
Proof. intros HP. unfold logger. now apply emits_emit. Qed.

#[export] Hint Resolve emits_logger emits_recordFailure emits_emailLib_send_call : emits.

(** In a list cut in two ways, a prefix without [P] that ends before an
    element is contained in every prefix that ends before an element of [P]. *)
Lemma prefix_before_first {A} (P : A -> Prop) (a b pre post : list A) (x y : A) :
  a ++ x :: b = pre ++ y :: post -> P y -> Forall (fun z => ~ P z) a ->
  exists c, pre = a ++ c.
Proof.
  revert pre. induction a as [|z a IH]; intros pre Heq Hy Hall.
  - now exists pre.
  - inversion Hall as [|? ? Hz Hall']; subst.
    destruct pre as [|p pre]; simpl in Heq.
    + injection Heq as <- _. contradiction.
    + injection Heq as <- Heq. destruct (IH pre Heq Hy Hall') as (c & ->).
      now exists c.
Qed.

Lemma skipLogs_notLinkCall env account : Forall notLinkCall (skipLogs env account).
Proof.
  eapply List.Forall_impl; [|apply skipLogs_logged].
  intros [] Hlog []; exact Hlog.
Qed.

(** A run either never fetches the link, or it fetches it after the
    instance was created and the REQUESTED row with its snapshot was written. *)
Lemma sendHelloWorksUsTaxForm_link_shape env client account year callbackUrl workflowId
    (w : World) :
  (exists ext,
      trace (snd (sendHelloWorksUsTaxForm env client account year callbackUrl workflowId w))
      = trace w ++ ext
      /\ Forall notLinkCall ext)
  \/ (exists mainUser instance doc before after iid st,
         getMainAdminToContact (expenses env) account (eligibleAdmins env account)
         = Some mainUser
         /\ HelloWorks.createInstance client
              (createInstanceRequest account (eligibleAdmins env account) mainUser year
                 callbackUrl workflowId)
            = Normal instance
         /\ trace (snd (sendHelloWorksUsTaxForm env client account year
                          callbackUrl workflowId w))
            = trace w ++ before ++ GetAuthenticatedLinkCall iid st :: after
         /\ Forall notLinkCall before
         /\ In (Persisted doc) before
         /\ sameKey US_TAX_FORM year (Collective.id account) doc = true
         /\ LegalDocument.requestStatus doc = REQUESTED
         /\ LegalDocument.data doc
            = JObj [("helloWorks", JObj [("instance", Instance.toJSON instance)])]).
Proof.
  destruct (getMainAdminToContact (expenses env) account (eligibleAdmins env account))
    as [mainUser|] eqn:Hcontact.
  2: { left. rewrite (sendHelloWorksUsTaxForm_skip _ _ _ _ _ _ _ Hcontact). simpl.
       eexists. split; [reflexivity|].
       apply Forall_app. split; [apply skipLogs_notLinkCall|].
       constructor; [apply notLinkCall_Logged | constructor]. }
  rewrite (sendHelloWorksUsTaxForm_contact _ _ _ _ _ _ _ _ Hcontact).
  unfold requestTaxForm.
  erewrite in_try_normal by reflexivity. cbn [legalDocuments faults trace].
  set (request := createInstanceRequest account (eligibleAdmins env account) mainUser
                    year callbackUrl workflowId).
  set (w01 := mkWorld (legalDocuments w) (faults w)
                ((trace w ++ skipLogs env account) ++ [CreateInstanceCall request])).
  assert (Forall notLinkCall (skipLogs env account ++ [CreateInstanceCall request]))
    as Hbefore.
  { apply Forall_app. split; [apply skipLogs_notLinkCall|].
    constructor; [apply notLinkCall_CreateInstanceCall | constructor]. }
  destruct (HelloWorks.createInstance client request) as [instance|e] eqn:Hcreate.
  - erewrite in_try_normal by reflexivity.
    match goal with
    | |- context [saveDocumentStatus ?a ?y ?s ?d] =>
        destruct (saveDocumentStatus_run a y s d w01) as (ext & Htrace & Hall & Hdoc);
        destruct (saveDocumentStatus a y s d w01) as [[doc|e] w2] eqn:Hsave
    end; simpl in Htrace, Hdoc.
    + destruct (Hdoc doc eq_refl) as (Hkey & Hstatus & Hdata & Hin).
      erewrite in_try_normal by exact Hsave.
      destruct (Instance.steps instance) as [|step rest] eqn:Hsteps.
      * erewrite in_try_throw by (unfold firstStep; rewrite Hsteps; reflexivity).
        left.
        destruct (emits_bind notLinkCall
                    (recordFailure account mainUser year (TypeError_url env)) settle
                    ltac:(auto with emits) ltac:(auto with emits) w2)
          as (ext2 & Htrace2 & Hall2).
        exists ((skipLogs env account ++ [CreateInstanceCall request]) ++ ext ++ ext2).
        rewrite Htrace2, Htrace. simpl. rewrite <- !app_assoc.
        split; [reflexivity|].
        rewrite !Forall_app in *. repeat split; try tauto.
        eapply List.Forall_impl; [|exact Hall]. intros [] Hp []; exact Hp.
      * erewrite in_try_normal by (unfold firstStep; rewrite Hsteps; reflexivity).
        right.
        match goal with
        | |- context [snd (?m w2)] =>
            assert (startsWith
                      (GetAuthenticatedLinkCall (Instance.id instance) (Step.step step)) m)
              as Hstarts
        end.
        { cbv zeta.
          apply startsWith_bind; [|auto with emits].
          apply startsWith_try_catch; [|auto with emits].
          apply startsWith_bind; [|intros; auto 10 with emits].
          apply startsWith_try_catch; [|intros; auto 10 with emits].
          apply startsWith_bind; [apply startsWith_emit | auto with emits]. }
        destruct (Hstarts w2) as (after & Hafter).
        exists mainUser, instance, doc,
          ((skipLogs env account ++ [CreateInstanceCall request]) ++ ext), after,
          (Instance.id instance), (Step.step step).
        split; [reflexivity|]. split; [exact Hcreate|].
        split; [rewrite Hafter, Htrace; simpl; rewrite <- !app_assoc; reflexivity|].
        split.
        { apply Forall_app. split; [assumption|].
          eapply List.Forall_impl; [|exact Hall]. intros [] Hp []; exact Hp. }
        split; [apply in_or_app; now right|].
        repeat split; assumption.
    + erewrite in_try_throw by exact Hsave.
      left.
      destruct (emits_bind notLinkCall (recordFailure account mainUser year e) settle
                  ltac:(auto with emits) ltac:(auto with emits) w2)
        as (ext2 & Htrace2 & Hall2).
      exists ((skipLogs env account ++ [CreateInstanceCall request]) ++ ext ++ ext2).
      rewrite Htrace2, Htrace. simpl. rewrite <- !app_assoc.
      split; [reflexivity|].
      rewrite !Forall_app in *. repeat split; try tauto.
      eapply List.Forall_impl; [|exact Hall]. intros [] Hp []; exact Hp.
  - erewrite in_try_throw by reflexivity.
    left.
    destruct (emits_bind notLinkCall (recordFailure account mainUser year e) settle
                ltac:(auto with emits) ltac:(auto with emits) w01)
      as (ext2 & Htrace2 & Hall2).
    exists ((skipLogs env account ++ [CreateInstanceCall request]) ++ ext2).
    rewrite Htrace2. simpl. rewrite <- !app_assoc.
    split; [reflexivity|].
    rewrite !Forall_app in *. tauto.
Qed.

(** C5 (as amended): whenever the authenticated link is fetched, the
    document was persisted before with status REQUESTED and the snapshot of
    the instance; and when the fetch fails, or the promise of the e-mail is
    rejected, the record is still REQUESTED and still holds the instance. *)
Theorem sendHelloWorksUsTaxForm_persists_before_link (env : Env) (client : HelloWorks.t)
    (account : Collective.t) (year : Z) (callbackUrl workflowId : string) (w : World) :
  let run := sendHelloWorksUsTaxForm env client account year callbackUrl workflowId w in
  let request := fun mainUser =>
    createInstanceRequest account (eligibleAdmins env account) mainUser year
      callbackUrl workflowId in
  (forall pre post iid st,
      trace (snd run) = trace w ++ pre ++ GetAuthenticatedLinkCall iid st :: post ->
      exists mainUser instance doc,
        getMainAdminToContact (expenses env) account (eligibleAdmins env account)
        = Some mainUser
        /\ HelloWorks.createInstance client (request mainUser) = Normal instance
        /\ In (Persisted doc) pre
        /\ LegalDocument.year doc = year
        /\ LegalDocument.CollectiveId doc = Collective.id account
        /\ LegalDocument.requestStatus doc = REQUESTED
        /\ LegalDocument.data doc
           = JObj [("helloWorks", JObj [("instance", Instance.toJSON instance)])])
  /\ (forall mainUser instance step rest,
        faults w = [] ->
        getMainAdminToContact (expenses env) account (eligibleAdmins env account)
        = Some mainUser ->
        HelloWorks.createInstance client (request mainUser) = Normal instance ->
        Instance.steps instance = step :: rest ->
        (forall data e,
            emailLib_send env "tax-form-request" (User.email mainUser) data
            <> ThrowsSync e) ->
        exists doc,
          In doc (legalDocuments (snd run))
          /\ LegalDocument.year doc = year
          /\ LegalDocument.CollectiveId doc = Collective.id account
          /\ LegalDocument.requestStatus doc = REQUESTED
          /\ storedInstance (LegalDocument.data doc) = Some (Instance.toJSON instance)).
Proof.
  cbv zeta.
  assert (forall doc,
             sameKey US_TAX_FORM year (Collective.id account) doc = true ->
             LegalDocument.year doc = year
             /\ LegalDocument.CollectiveId doc = Collective.id account) as Hkeys.
  { intros doc Hkey. unfold sameKey in Hkey.
    apply andb_true_iff in Hkey as [Hkey Hcid].
    apply andb_true_iff in Hkey as [_ Hyear].
    apply Z.eqb_eq in Hyear, Hcid. tauto. }
  split.
  - intros pre post iid st Hcut.
    destruct (sendHelloWorksUsTaxForm_link_shape env client account year
                callbackUrl workflowId w)
      as [(ext & Htrace & Hall)
         |(mainUser & instance & doc & before & after & iid' & st' & Hcontact & Hcreate
           & Htrace & Hbefore & Hin & Hkey & Hstatus & Hdata)].
    + rewrite Htrace in Hcut. apply app_inv_head in Hcut. subst ext.
      apply Forall_app in Hall as [_ Hall].
      inversion Hall as [|? ? Hlink _]. destruct Hlink. exact I.
    + rewrite Htrace in Hcut. apply app_inv_head in Hcut.
      destruct (prefix_before_first isLinkCall _ _ _ _ _ _ Hcut I Hbefore) as (c & ->).
      exists mainUser, instance, doc.
      destruct (Hkeys doc Hkey) as [Hyear Hcid].
      repeat split; try assumption. apply in_or_app. now left.
  - intros mainUser instance step rest Hfaults Hcontact Hcreate Hsteps Hsend.
    rewrite (sendHelloWorksUsTaxForm_contact _ _ _ _ _ _ _ _ Hcontact).
    unfold requestTaxForm.
    erewrite in_try_normal by reflexivity.
    erewrite in_try_normal by (unfold lift; rewrite Hcreate; reflexivity).
    match goal with
    | |- context [saveDocumentStatus ?a ?y ?s ?d] =>
        destruct (saveDocumentStatus_accepted a y s d
                    (mkWorld (legalDocuments w) (faults w)
                       ((trace w ++ skipLogs env account)
                        ++ [CreateInstanceCall
                              (createInstanceRequest account (eligibleAdmins env account)
                                 mainUser year callbackUrl workflowId)])) Hfaults)
          as (requested & table & created & Hsave & _ & Hkey & Hstatus & Hdata & Hin & _)
    end.
    erewrite in_try_normal by exact Hsave.
    erewrite in_try_normal by (unfold firstStep; rewrite Hsteps; reflexivity).
    assert (exists documentLink w3,
               try_catch
                 (do! emit (GetAuthenticatedLinkCall (Instance.id instance)
                              (Step.step step)) in
                  lift (HelloWorks.getAuthenticatedLinkForStep client
                          (Instance.id instance) (Step.step step)))
                 (fun e =>
                    do! logger LogWarn
                          (ErrorGettingAuthenticatedLink (Instance.id instance)
                             (JsError.message e)) in
                    ret (Step.url step))
                 (mkWorld table []
                    (trace
                       (mkWorld (legalDocuments w) (faults w)
                          ((trace w ++ skipLogs env account)
                           ++ [CreateInstanceCall
                                 (createInstanceRequest account
                                    (eligibleAdmins env account) mainUser year
                                    callbackUrl workflowId)]))
                     ++ created ++ [Persisted requested]))
               = (Normal documentLink, w3)
               /\ legalDocuments w3 = table /\ faults w3 = [])
      as (documentLink & w3 & Hfetch & Htable & Hfaults3).
    { unfold try_catch, bind, emit, lift, logger, ret. simpl.
      destruct (HelloWorks.getAuthenticatedLinkForStep client (Instance.id instance)
                  (Step.step step)); simpl; eexists _, _; repeat split; reflexivity. }
    erewrite in_try_normal by exact Hfetch.
    destruct w3 as [table3 faults3 trace3]. simpl in Htable, Hfaults3. subst table3 faults3.
    erewrite in_try_normal by (unfold update, bind, db_write; simpl; reflexivity).
    unfold emailLib_send_call.
    erewrite in_try_normal by reflexivity.
    match goal with
    | |- context [emailLib_send env ?t ?to ?d] =>
        pose proof (Hsend d) as Hsync;
        destruct (emailLib_send env t to d) as [|e'|e']
    end.
    3: { now destruct (Hsync e'). }
    all: unfold bind, try_catch, ret, settle; simpl.
    all: eexists; split;
      [apply in_map_iff; exists requested;
       split; [rewrite Z.eqb_refl; reflexivity | assumption]|].
    all: destruct (Hkeys requested Hkey) as [Hyear Hcid].
    all: repeat split; try assumption.
    all: simpl; rewrite Hdata, deepMerge_instance_link; reflexivity.
Qed.

Lemma sendHelloWorksUsTaxForm_persists_before_link_witness :
  exists doc,
    In doc
       (legalDocuments
          (snd (sendHelloWorksUsTaxForm rejectingMailEnv noLinkClient acme 2024
                  callbackUrl0 workflowId0 emptyWorld)))
    /\ LegalDocument.year doc = 2024
    /\ LegalDocument.CollectiveId doc = Collective.id acme
    /\ LegalDocument.requestStatus doc = REQUESTED
    /\ storedInstance (LegalDocument.data doc) = Some (Instance.toJSON instanceA).
Proof.
  apply (proj2 (sendHelloWorksUsTaxForm_persists_before_link rejectingMailEnv
                  noLinkClient acme 2024 callbackUrl0 workflowId0 emptyWorld)
           jane instanceA stepOne []).
  - reflexivity.
  - reflexivity.
  - reflexivity.
  - reflexivity.
  - intros data e. discriminate.
Defined.

(** The instance is created and the link is fetched, then the database
    rejects the write of the link: the handler turns the record into an ERROR
    record whose data is the error alone. *)
Lemma sendHelloWorksUsTaxForm_requested_lost_counterexample :
  HelloWorks.createInstance workingClient
    (createInstanceRequest acme [jane] jane 2024 callbackUrl0 workflowId0)
  = Normal instanceA
  /\ sendHelloWorksUsTaxForm sampleEnv workingClient acme 2024
       callbackUrl0 workflowId0 thirdWriteFails
     = (Normal
          (Document
             (LegalDocument.mk 1 US_TAX_FORM 2024 10 ERROR
                (JObj [("error", JObj [("message", JStr "deadlock detected");
                                       ("stack", JStr "SequelizeDatabaseError")])]))),
        mkWorld
          [LegalDocument.mk 1 US_TAX_FORM 2024 10 ERROR
             (JObj [("error", JObj [("message", JStr "deadlock detected");
                                    ("stack", JStr "SequelizeDatabaseError")])])]
          []
          [CreateInstanceCall
             (createInstanceRequest acme [jane] jane 2024 callbackUrl0 workflowId0);
           Persisted (LegalDocument.mk 1 US_TAX_FORM 2024 10 NOT_REQUESTED JNull);
           Persisted (LegalDocument.mk 1 US_TAX_FORM 2024 10 REQUESTED
                        (JObj [("helloWorks",
                                JObj [("instance", Instance.toJSON instanceA)])]));
           GetAuthenticatedLinkCall "instance_a" "step_1";
           Logged LogError
             (FailedToInitialize 10 "jane@opencollective.com"
                (JsError.mk "deadlock detected" "SequelizeDatabaseError"));
           Persisted (LegalDocument.mk 1 US_TAX_FORM 2024 10 ERROR
                        (JObj [("error",
                                JObj [("message", JStr "deadlock detected");
                                      ("stack", JStr "SequelizeDatabaseError")])]))])
  /\ storedInstance
       (JObj [("error", JObj [("message", JStr "deadlock detected");
                              ("stack", JStr "SequelizeDatabaseError")])])
     = None.
Proof. repeat split; reflexivity. Qed.

(** ** Replacing and merging the data *)

(** C1 (as amended): whenever [saveDocumentStatus] returns a document, which
    it does when the database accepts its writes, it has found or created the
    row of the account, the year and the tax form, without adding a second
    one, and has given it the status and exactly the data it was passed: it
    replaces, it does not merge.  The merge is done by the caller that adds
    the link: in [sendHelloWorksUsTaxForm] the document that was saved with
    the instance is updated with [deepMerge] of its data and the link, and
    the record then holds the instance and the link. *)
Theorem saveDocumentStatus_replaces_data account year status data (w : World) :
  (forall doc w',
      saveDocumentStatus account year status data w = (Normal doc, w') ->
      LegalDocument.documentType doc = US_TAX_FORM
      /\ LegalDocument.year doc = year
      /\ LegalDocument.CollectiveId doc = Collective.id account
      /\ LegalDocument.requestStatus doc = status
      /\ LegalDocument.data doc = data
      /\ In doc (legalDocuments w')
      /\ length (rowsFor US_TAX_FORM year (Collective.id account) (legalDocuments w'))
         = Nat.max 1 (length (rowsFor US_TAX_FORM year (Collective.id account)
                                (legalDocuments w))))
  /\ (faults w = [] ->
      exists doc w', saveDocumentStatus account year status data w = (Normal doc, w'))
  /\ (forall env client callbackUrl workflowId mainUser instance step rest,
        faults w = [] ->
        getMainAdminToContact (expenses env) account (eligibleAdmins env account)
        = Some mainUser ->
        HelloWorks.createInstance client
          (createInstanceRequest account (eligibleAdmins env account) mainUser year
             callbackUrl workflowId)
        = Normal instance ->
        Instance.steps instance = step :: rest ->
        (forall data e,
            emailLib_send env "tax-form-request" (User.email mainUser) data
            <> ThrowsSync e) ->
        let run := sendHelloWorksUsTaxForm env client account year callbackUrl workflowId w in
        exists requested linked documentLink,
          In (Persisted requested) (trace (snd run))
          /\ LegalDocument.data requested
             = JObj [("helloWorks", JObj [("instance", Instance.toJSON instance)])]
          /\ documentLink
             = match HelloWorks.getAuthenticatedLinkForStep client
                       (Instance.id instance) (Step.step step) with
               | Normal url => url
               | Throw _ => Step.url step
               end
          /\ In linked (legalDocuments (snd run))
          /\ LegalDocument.id linked = LegalDocument.id requested
          /\ LegalDocument.year linked = year
          /\ LegalDocument.CollectiveId linked = Collective.id account
          /\ LegalDocument.requestStatus linked = REQUESTED
          /\ LegalDocument.data linked
             = deepMerge (LegalDocument.data requested)
                 (JObj [("helloWorks", JObj [("documentLink", JStr documentLink)])])
          /\ LegalDocument.data linked
             = JObj [("helloWorks", JObj [("instance", Instance.toJSON instance);
                                          ("documentLink", JStr documentLink)])]).
Proof.
  split; [|split].
  - intros doc w' Hrun. apply saveDocumentStatus_returns in Hrun.
    destruct (saveDocumentStatus_accepted account year status data
                (mkWorld (legalDocuments w) [] (trace w)) eq_refl)
      as (doc' & table & created & Hrun' & _ & Hkey & Hstatus & Hdata & Hin & Hcount).
    rewrite Hrun in Hrun'. injection Hrun' as <- <- _.
    apply sameKey_true in Hkey as (Htype & Hyear & Hcid).
    repeat split; assumption.
  - intros Hfaults.
    destruct (saveDocumentStatus_accepted account year status data w Hfaults)
      as (doc & table & created & Hrun & _).
    eexists _, _. exact Hrun.
  - intros env client callbackUrl workflowId mainUser instance step rest
      Hfaults Hcontact Hcreate Hsteps Hsend. cbv zeta.
    rewrite (sendHelloWorksUsTaxForm_contact _ _ _ _ _ _ _ _ Hcontact).
    unfold requestTaxForm.
    erewrite in_try_normal by reflexivity.
    erewrite in_try_normal by (unfold lift; rewrite Hcreate; reflexivity).
    match goal with
    | |- context [saveDocumentStatus ?a ?y ?s ?d] =>
        destruct (saveDocumentStatus_accepted a y s d
                    (mkWorld (legalDocuments w) (faults w)
                       ((trace w ++ skipLogs env account)
                        ++ [CreateInstanceCall
                              (createInstanceRequest account (eligibleAdmins env account)
                                 mainUser year callbackUrl workflowId)])) Hfaults)
          as (requested & table & created & Hsave & _ & Hkey & Hstatus & Hdata & Hin & _)
    end.
    apply sameKey_true in Hkey as (_ & Hyear & Hcid).
    erewrite in_try_normal by exact Hsave.
    erewrite in_try_normal by (unfold firstStep; rewrite Hsteps; reflexivity).
    assert (exists w3,
               try_catch
                 (do! emit (GetAuthenticatedLinkCall (Instance.id instance)
                              (Step.step step)) in
                  lift (HelloWorks.getAuthenticatedLinkForStep client
                          (Instance.id instance) (Step.step step)))
                 (fun e =>
                    do! logger LogWarn
                          (ErrorGettingAuthenticatedLink (Instance.id instance)
                             (JsError.message e)) in
                    ret (Step.url step))
                 (mkWorld table []
                    (trace
                       (mkWorld (legalDocuments w) (faults w)
                          ((trace w ++ skipLogs env account)
                           ++ [CreateInstanceCall
                                 (createInstanceRequest account
                                    (eligibleAdmins env account) mainUser year
                                    callbackUrl workflowId)]))
                     ++ created ++ [Persisted requested]))
               = (Normal
                    match HelloWorks.getAuthenticatedLinkForStep client
                            (Instance.id instance) (Step.step step) with
                    | Normal url => url
                    | Throw _ => Step.url step
                    end, w3)
               /\ legalDocuments w3 = table /\ faults w3 = []
               /\ In (Persisted requested) (trace w3))
      as (w3 & Hfetch & Htable & Hfaults3 & Htrace3).
    { unfold try_catch, bind, emit, lift, logger, ret. simpl.
      destruct (HelloWorks.getAuthenticatedLinkForStep client (Instance.id instance)
                  (Step.step step)); simpl; eexists; repeat split;
        cbn [trace]; rewrite !in_app_iff; simpl; tauto. }
    erewrite in_try_normal by exact Hfetch.
    destruct w3 as [table3 faults3 trace3]. simpl in Htable, Hfaults3, Htrace3.
    subst table3 faults3.
    erewrite in_try_normal by (unfold update, bind, db_write; simpl; reflexivity).
    unfold emailLib_send_call.
    erewrite in_try_normal by reflexivity.
    match goal with
    | |- context [emailLib_send env ?t ?to ?d] =>
        pose proof (Hsend d) as Hsync;
        destruct (emailLib_send env t to d) as [|e'|e']
    end.
    3: { now destruct (Hsync e'). }
    all: unfold bind, try_catch, ret, settle; simpl.
    all: exists requested; eexists; eexists.
    all: split; [rewrite !in_app_iff; simpl; tauto|].
    all: split; [exact Hdata|]. all: split; [reflexivity|].
    all: split;
      [apply in_map_iff; exists requested;
       split; [rewrite Z.eqb_refl; reflexivity | assumption]|].
    all: repeat split; try assumption.
    all: simpl; rewrite Hdata; apply deepMerge_instance_link.
Qed.

(** The flow for Acme and 2024 on an empty table, the link not being handed
    out: the record holds the instance and the URL of the first step. *)
Lemma saveDocumentStatus_replaces_data_witness :
  exists linked,
    In linked
       (legalDocuments
          (snd (sendHelloWorksUsTaxForm sampleEnv noLinkClient acme 2024
                  callbackUrl0 workflowId0 emptyWorld)))
    /\ LegalDocument.data linked
       = JObj [("helloWorks", JObj [("instance", Instance.toJSON instanceA);
                                    ("documentLink", JStr (Step.url stepOne))])].
Proof.
  destruct (proj2 (proj2 (saveDocumentStatus_replaces_data acme 2024 REQUESTED JNull
                            emptyWorld))
              sampleEnv noLinkClient callbackUrl0 workflowId0 jane instanceA stepOne [])
    as (requested & linked & documentLink & _ & _ & Hlink & Hin & _ & _ & _ & _ & _
        & Hdata).
  - reflexivity.
  - reflexivity.
  - reflexivity.
  - reflexivity.
  - intros data e. discriminate.
  - exists linked. split; [exact Hin|]. rewrite Hdata, Hlink. reflexivity.
Defined.

(** * Further properties *)

(** ** Contact resolution, continued *)

Lemma head_In {A} (l : list A) (x : A) : head l = Some x -> In x l.
Proof. destruct l as [|y l]; [discriminate | intros [= ->]; now left]. Qed.

(** X1: the contact is always one of the admins it was chosen from, and
    there is no contact only when there is no admin. *)
Theorem getMainAdminToContact_among_admins (expenses : list Expense.t)
    (account : Collective.t) (adminUsers : list User.t) :
  (forall u, getMainAdminToContact expenses account adminUsers = Some u ->
             In u adminUsers)
  /\ (getMainAdminToContact expenses account adminUsers = None <-> adminUsers = []).
Proof.
  split.
  - intros u. unfold getMainAdminToContact.
    destruct (1 <? length adminUsers)%nat; [|apply head_In].
    destruct (findOneLatest (expenseWhere account adminUsers) expenses) as [e|];
      [|apply head_In].
    destruct (array_find (fun u0 => User.id u0 =? Expense.UserId e) adminUsers)
      as [found|] eqn:Hfind; [|apply head_In].
    intros [= <-]. now apply array_find_found in Hfind.
  - split; [|intros ->; reflexivity].
    destruct adminUsers as [|a rest]; [reflexivity|].
    unfold getMainAdminToContact. simpl head.
    destruct (1 <? length (a :: rest))%nat; [|discriminate].
    destruct (findOneLatest (expenseWhere account (a :: rest)) expenses) as [e|];
      [|discriminate].
    destruct (array_find (fun u0 => User.id u0 =? Expense.UserId e) (a :: rest));
      discriminate.
Qed.

(** X2: an expense that was submitted from another account, or by someone
    who is not one of the admins, has no influence on the choice. *)
Theorem getMainAdminToContact_ignores_other_expenses (before after : list Expense.t)
    (other : Expense.t) (account : Collective.t) (adminUsers : list User.t) :
  ~ attributable account adminUsers other ->
  getMainAdminToContact (before ++ other :: after) account adminUsers
  = getMainAdminToContact (before ++ after) account adminUsers.
Proof.
  intros Hother.
  assert (expenseWhere account adminUsers other = false) as Hwhere.
  { destruct (expenseWhere account adminUsers other) eqn:Hw; [|reflexivity].
    now apply expenseWhere_attributable in Hw. }
  unfold getMainAdminToContact, findOneLatest.
  rewrite !List.filter_app. simpl. now rewrite Hwhere.
Qed.

(** The expense of another account, later than all the others, is dropped. *)
Lemma getMainAdminToContact_ignores_other_expenses_witness :
  getMainAdminToContact
    ([Expense.mk 1 50 10 5; Expense.mk 2 100 10 7] ++ Expense.mk 3 200 11 9 :: [])
    acme [alice; jane; bob]
  = getMainAdminToContact ([Expense.mk 1 50 10 5; Expense.mk 2 100 10 7] ++ [])
      acme [alice; jane; bob].
Proof.
  apply (getMainAdminToContact_ignores_other_expenses
           [Expense.mk 1 50 10 5; Expense.mk 2 100 10 7] [] (Expense.mk 3 200 11 9)
           acme [alice; jane; bob]).
  intros [Hfrom _]. simpl in Hfrom. lia.
Defined.

(** ** What a computation does to the table *)

Section TableSteps.
Variable R : list LegalDocument.t -> list LegalDocument.t -> Prop.
Hypothesis R_refl : forall table, R table table.
Hypothesis R_trans : forall t1 t2 t3, R t1 t2 -> R t2 t3 -> R t1 t3.

Lemma movesTable_ret {A} (a : A) : movesTable R (ret a).
Proof. intros w. apply R_refl. Qed.

Lemma movesTable_throw {A} (e : JsError.t) : movesTable R (@throw A e).
Proof. intros w. apply R_refl. Qed.

Lemma movesTable_lift {A} (c : completion A) : movesTable R (lift c).
Proof. intros w. apply R_refl. Qed.

Lemma movesTable_settle {A} (p : promise A) : movesTable R (settle p).
Proof. destruct p; [apply movesTable_ret | apply movesTable_throw]. Qed.

Lemma movesTable_emit (ev : Event) : movesTable R (emit ev).
Proof. intros w. apply R_refl. Qed.

Lemma movesTable_logger level msg : movesTable R (logger level msg).
Proof. apply movesTable_emit. Qed.

Lemma movesTable_db_write : movesTable R db_write.
Proof.
  intros w. unfold db_write. destruct (faults w) as [|[e|] rest]; apply R_refl.
Qed.

Lemma movesTable_bind {A B} (m : M A) (k : A -> M B) :
  movesTable R m -> (forall a, movesTable R (k a)) -> movesTable R (bind m k).
Proof.
  intros Hm Hk w. unfold bind. specialize (Hm w).
  destruct (m w) as [[a|e] w1]; simpl in Hm; [|assumption].
  eapply R_trans; [exact Hm | apply Hk].
Qed.

Lemma movesTable_try_catch {A} (m : M A) (h : JsError.t -> M A) :
  movesTable R m -> (forall e, movesTable R (h e)) -> movesTable R (try_catch m h).
Proof.
  intros Hm Hh w. unfold try_catch. specialize (Hm w).
  destruct (m w) as [[a|e] w1]; simpl in Hm; [assumption|].
  eapply R_trans; [exact Hm | apply Hh].
Qed.

Lemma movesTable_emailLib_send_call env template to data :
  movesTable R (emailLib_send_call env template to data).
Proof.
  unfold emailLib_send_call. apply movesTable_bind; [apply movesTable_emit|].
  intros _. destruct (emailLib_send env template to data);
    [apply movesTable_ret | apply movesTable_ret | apply movesTable_throw].
Qed.

Lemma movesTable_getAdminsForAccount env account :
  movesTable R (getAdminsForAccount env account).
Proof. intros w. rewrite getAdminsForAccount_run. apply R_refl. Qed.

End TableSteps.

Lemma addsAtMost_refl year CollectiveId table : addsAtMost year CollectiveId table table.
Proof. intros t y c. now left. Qed.

Lemma addsAtMost_trans year CollectiveId t1 t2 t3 :
  addsAtMost year CollectiveId t1 t2 -> addsAtMost year CollectiveId t2 t3 ->
  addsAtMost year CollectiveId t1 t3.
Proof.
  intros H12 H23 t y c.
  destruct (H12 t y c) as [E12|(Ht & Hy & Hc & Hnone & Hone)];
    destruct (H23 t y c) as [E23|(Ht' & Hy' & Hc' & Hnone' & Hone')].
  - left. congruence.
  - right. repeat split; try assumption.
    destruct (rowsFor t y c t1); [reflexivity|]. rewrite Hnone' in E12. discriminate.
  - right. repeat split; try assumption. congruence.
  - rewrite Hnone' in Hone. discriminate.
Qed.

Lemma movesTable_findOrCreate year CollectiveId :
  movesTable (addsAtMost year CollectiveId) (findOrCreate US_TAX_FORM year CollectiveId).
Proof.
  unfold findOrCreate.
  apply movesTable_bind;
    [apply addsAtMost_trans | apply movesTable_db_write, addsAtMost_refl |].
  intros _ w.
  destruct (array_find (sameKey US_TAX_FORM year CollectiveId) (legalDocuments w))
    eqn:Hfind; simpl; [apply addsAtMost_refl|].
  apply array_find_none in Hfind. intros t y c. unfold rowsFor in *.
  rewrite List.filter_app. simpl.
  destruct (sameKey t y c _) eqn:Hkey.
  - apply sameKey_true in Hkey as (<- & <- & <-). simpl. right.
    rewrite Hfind. repeat split; reflexivity.
  - left. now rewrite app_nil_r.
Qed.

Lemma movesTable_update year CollectiveId doc f :
  movesTable (addsAtMost year CollectiveId) (update doc f).
Proof.
  unfold update.
  apply movesTable_bind;
    [apply addsAtMost_trans | apply movesTable_db_write, addsAtMost_refl |].
  intros _ w t y c. left. simpl.
  apply (rowsFor_map_assign t y c f
           (fun row => LegalDocument.id row =? LegalDocument.id doc)).
Qed.

Lemma movesTable_saveDocumentStatus account year status data :
  movesTable (addsAtMost year (Collective.id account))
             (saveDocumentStatus account year status data).
Proof.
  unfold saveDocumentStatus.
  apply movesTable_bind;
    [apply addsAtMost_trans | apply movesTable_findOrCreate |].
  intros found. apply movesTable_update.
Qed.

(** X5: whatever HelloWorks, the mail transport and the database answer, a
    run of [sendHelloWorksUsTaxForm] deletes no legal document, adds none for
    another account, year or type, and adds at most one for the account and
    the year, only when there was none; so a table with at most one row for
    each key stays such a table. *)
Theorem sendHelloWorksUsTaxForm_table (env : Env) (client : HelloWorks.t)
    (account : Collective.t) (year : Z) (callbackUrl workflowId : string) (w : World) :
  let after :=
    legalDocuments
      (snd (sendHelloWorksUsTaxForm env client account year callbackUrl workflowId w)) in
  addsAtMost year (Collective.id account) (legalDocuments w) after
  /\ (uniquePerKey (legalDocuments w) -> uniquePerKey after).
Proof.
  cbv zeta.
  assert (movesTable (addsAtMost year (Collective.id account))
            (sendHelloWorksUsTaxForm env client account year callbackUrl workflowId))
    as Hmoves.
  { pose proof (addsAtMost_refl year (Collective.id account)) as Hrefl.
    pose proof (addsAtMost_trans year (Collective.id account)) as Htrans.
    unfold sendHelloWorksUsTaxForm.
    apply movesTable_bind; [assumption | now apply movesTable_getAdminsForAccount |].
    intros adminUsers.
    destruct (getMainAdminToContact (expenses env) account adminUsers) as [mainUser|].
    2: { apply movesTable_bind; [assumption | now apply movesTable_logger |].
         intros _. now apply movesTable_ret. }
    apply movesTable_bind; [assumption | | intros p; now apply movesTable_settle].
    apply movesTable_try_catch; [assumption | |].
    - unfold requestTaxForm.
      apply movesTable_bind; [assumption | now apply movesTable_emit |]. intros _.
      apply movesTable_bind; [assumption | now apply movesTable_lift |]. intros instance.
      apply movesTable_bind; [assumption | apply movesTable_saveDocumentStatus |].
      intros document.
      apply movesTable_bind; [assumption | |].
      { unfold firstStep. destruct (head (Instance.steps instance));
          [now apply movesTable_ret | now apply movesTable_throw]. }
      intros step.
      apply movesTable_bind; [assumption | |].
      { apply movesTable_try_catch; [assumption | |].
        - apply movesTable_bind; [assumption | now apply movesTable_emit |].
          intros _. now apply movesTable_lift.
        - intros e. apply movesTable_bind; [assumption | now apply movesTable_logger |].
          intros _. now apply movesTable_ret. }
      intros documentLink.
      apply movesTable_bind; [assumption | apply movesTable_update |].
      intros _. now apply movesTable_emailLib_send_call.
    - intros error. unfold recordFailure.
      apply movesTable_bind; [assumption | now apply movesTable_logger |]. intros _.
      apply movesTable_bind; [assumption | apply movesTable_saveDocumentStatus |].
      intros doc. now apply movesTable_ret. }
  split; [apply Hmoves|].
  intros Hunique t y c.
  destruct (Hmoves w t y c) as [Heq|(_ & _ & _ & _ & Hone)].
  - rewrite Heq. apply Hunique.
  - rewrite Hone. lia.
Qed.

(** ** [saveDocumentStatus], continued *)

Lemma array_find_map {A} (pred : A -> bool) (g : A -> A) (l : list A) :
  (forall x, pred (g x) = pred x) ->
  array_find pred (map g l) = option_map g (array_find pred l).
Proof.
  intros Hg. induction l as [|a l IH]; simpl; [reflexivity|].
  rewrite Hg. destruct (pred a); [reflexivity | assumption].
Qed.

Lemma array_find_app_none {A} (pred : A -> bool) (l : list A) (x : A) :
  array_find pred l = None ->
  array_find pred (l ++ [x]) = if pred x then Some x else None.
Proof.
  induction l as [|a l IH]; simpl; [reflexivity|].
  destruct (pred a); [discriminate | assumption].
Qed.

Lemma array_find_rowsFor t y c (table : list LegalDocument.t) :
  array_find (sameKey t y c) table = None <-> rowsFor t y c table = [].
Proof.
  split; [apply array_find_none|].
  intros Hnone. destruct (array_find (sameKey t y c) table) as [doc|] eqn:Hfind;
    [|reflexivity].
  apply array_find_found in Hfind as [Hin Hkey].
  assert (In doc (rowsFor t y c table)) as Hrow by (apply filter_In; now split).
  rewrite Hnone in Hrow. destruct Hrow.
Qed.

(** X6: [saveDocumentStatus] is not atomic.  When the database rejects the
    find-or-create, the table is left as it was; when it rejects the update
    that follows, a row that had to be created stays behind, NOT_REQUESTED and
    without data.  In both cases the error of the database is thrown. *)
Theorem saveDocumentStatus_rejected account year status data (w : World)
    (e : JsError.t) (rest : list (option JsError.t)) :
  let fresh :=
    LegalDocument.mk (nextId (legalDocuments w)) US_TAX_FORM year (Collective.id account)
      NOT_REQUESTED JNull in
  (faults w = Some e :: rest ->
   saveDocumentStatus account year status data w
   = (Throw e, mkWorld (legalDocuments w) rest (trace w)))
  /\ (faults w = None :: Some e :: rest ->
      rowsFor US_TAX_FORM year (Collective.id account) (legalDocuments w) = [] ->
      saveDocumentStatus account year status data w
      = (Throw e,
         mkWorld (legalDocuments w ++ [fresh]) rest (trace w ++ [Persisted fresh])))
  /\ (faults w = None :: Some e :: rest ->
      rowsFor US_TAX_FORM year (Collective.id account) (legalDocuments w) <> [] ->
      saveDocumentStatus account year status data w
      = (Throw e, mkWorld (legalDocuments w) rest (trace w))).
Proof.
  cbv zeta. destruct w as [table fs tr]. simpl.
  unfold saveDocumentStatus, findOrCreate, update, bind, db_write.
  split; [|split].
  - intros ->. reflexivity.
  - intros -> Hnone. apply array_find_rowsFor in Hnone. simpl. now rewrite Hnone.
  - intros -> Hsome. simpl.
    destruct (array_find (sameKey US_TAX_FORM year (Collective.id account)) table)
      eqn:Hfind; [reflexivity|].
    now apply array_find_rowsFor in Hfind.
Qed.

Lemma saveDocumentStatus_rejected_witness :
  saveDocumentStatus acme 2024 REQUESTED (JObj [])
    (mkWorld [] [None; Some timeoutError] [])
  = (Throw timeoutError,
     mkWorld ([] ++ [LegalDocument.mk 1 US_TAX_FORM 2024 10 NOT_REQUESTED JNull]) []
       ([] ++ [Persisted (LegalDocument.mk 1 US_TAX_FORM 2024 10 NOT_REQUESTED JNull)])).
Proof.
  apply (proj1 (proj2 (saveDocumentStatus_rejected acme 2024 REQUESTED (JObj [])
                         (mkWorld [] [None; Some timeoutError] []) timeoutError []))).
  - reflexivity.
  - reflexivity.
Defined.

Lemma assign_assign (f : LegalDocument.fields) (row : LegalDocument.t) :
  LegalDocument.assign f (LegalDocument.assign f row) = LegalDocument.assign f row.
Proof.
  destruct f as [[s|] [d|]], row; reflexivity.
Qed.

Lemma map_assign_twice (f : LegalDocument.fields) (id : Z) (table : list LegalDocument.t) :
  map (fun row => if LegalDocument.id row =? id then LegalDocument.assign f row else row)
      (map (fun row => if LegalDocument.id row =? id then LegalDocument.assign f row
                       else row) table)
  = map (fun row => if LegalDocument.id row =? id then LegalDocument.assign f row else row)
        table.
Proof.
  rewrite map_map. apply map_ext. intros row.
  destruct (LegalDocument.id row =? id) eqn:Hid; [|now rewrite Hid].
  change (LegalDocument.id (LegalDocument.assign f row)) with (LegalDocument.id row).
  rewrite Hid. apply assign_assign.
Qed.

(** The two ways of [saveDocumentStatus] on a database that accepts its
    writes: the row is found, or it is created first. *)
Lemma saveDocumentStatus_found account year status data (w : World)
    (doc : LegalDocument.t) :
  let f := LegalDocument.mkFields (Some status) (Some data) in
  faults w = [] ->
  array_find (sameKey US_TAX_FORM year (Collective.id account)) (legalDocuments w)
  = Some doc ->
  saveDocumentStatus account year status data w
  = (Normal (LegalDocument.assign f doc),
     mkWorld
       (map (fun row => if LegalDocument.id row =? LegalDocument.id doc
                        then LegalDocument.assign f row else row)
            (legalDocuments w))
       [] (trace w ++ [Persisted (LegalDocument.assign f doc)])).
Proof.
  cbv zeta. intros Hfaults Hfind. destruct w as [table fs tr].
  simpl in Hfaults, Hfind. subst fs.
  unfold saveDocumentStatus, findOrCreate, update, bind, db_write. simpl.
  rewrite Hfind. reflexivity.
Qed.

Lemma saveDocumentStatus_created account year status data (w : World) :
  let f := LegalDocument.mkFields (Some status) (Some data) in
  let fresh :=
    LegalDocument.mk (nextId (legalDocuments w)) US_TAX_FORM year (Collective.id account)
      NOT_REQUESTED JNull in
  faults w = [] ->
  array_find (sameKey US_TAX_FORM year (Collective.id account)) (legalDocuments w)
  = None ->
  saveDocumentStatus account year status data w
  = (Normal (LegalDocument.assign f fresh),
     mkWorld
       (map (fun row => if LegalDocument.id row =? LegalDocument.id fresh
                        then LegalDocument.assign f row else row)
            (legalDocuments w ++ [fresh]))
       [] (trace w ++ [Persisted fresh; Persisted (LegalDocument.assign f fresh)])).
Proof.
  cbv zeta. intros Hfaults Hfind. destruct w as [table fs tr].
  simpl in Hfaults, Hfind. subst fs.
  unfold saveDocumentStatus, findOrCreate, update, bind, db_write. simpl.
  rewrite Hfind. simpl. now rewrite <- app_assoc.
Qed.

(** X7: on a database that accepts its writes, saving the same status and
    data a second time returns the same row and leaves the table as the first
    save left it. *)
Theorem saveDocumentStatus_idempotent account year status data (w : World) :
  faults w = [] ->
  let first := saveDocumentStatus account year status data w in
  let second := saveDocumentStatus account year status data (snd first) in
  fst second = fst first
  /\ legalDocuments (snd second) = legalDocuments (snd first).
Proof.
  intros Hfaults. cbv zeta.
  set (key := sameKey US_TAX_FORM year (Collective.id account)).
  set (f := LegalDocument.mkFields (Some status) (Some data)).
  assert (forall id row,
             key (if LegalDocument.id row =? id then LegalDocument.assign f row else row)
             = key row) as Hkey.
  { intros id row. destruct (LegalDocument.id row =? id); reflexivity. }
  destruct (array_find key (legalDocuments w)) as [doc|] eqn:Hfind.
  - rewrite (saveDocumentStatus_found account year status data w doc Hfaults Hfind).
    cbn [fst snd].
    erewrite saveDocumentStatus_found; cbn [legalDocuments faults trace].
    2: reflexivity.
    2: { fold key f. rewrite (array_find_map key _ _ (Hkey (LegalDocument.id doc))).
         fold key in Hfind. rewrite Hfind. simpl. now rewrite Z.eqb_refl. }
    cbn [fst snd legalDocuments]. fold f.
    change (LegalDocument.id (LegalDocument.assign f doc)) with (LegalDocument.id doc).
    rewrite assign_assign, map_assign_twice. now split.
  - rewrite (saveDocumentStatus_created account year status data w Hfaults Hfind).
    cbn [fst snd].
    erewrite saveDocumentStatus_found; cbn [legalDocuments faults trace].
    2: reflexivity.
    2: { fold key f.
         rewrite (array_find_map key _ _ (Hkey (nextId (legalDocuments w)))).
         fold key in Hfind. rewrite (array_find_app_none _ _ _ Hfind).
         assert (key (LegalDocument.mk (nextId (legalDocuments w)) US_TAX_FORM year
                        (Collective.id account) NOT_REQUESTED JNull) = true) as ->.
         { unfold key, sameKey. simpl. now rewrite !Z.eqb_refl. }
         simpl. now rewrite Z.eqb_refl. }
    cbn [fst snd legalDocuments]. fold f.
    change (LegalDocument.id (LegalDocument.assign f _)) with (nextId (legalDocuments w)).
    change (LegalDocument.id (LegalDocument.mk (nextId (legalDocuments w)) _ _ _ _ _))
      with (nextId (legalDocuments w)).
    rewrite assign_assign, map_assign_twice. now split.
Qed.

Lemma saveDocumentStatus_idempotent_witness :
  fst (saveDocumentStatus acme 2024 ERROR (JObj [])
         (snd (saveDocumentStatus acme 2024 ERROR (JObj []) sampleWorld)))
  = fst (saveDocumentStatus acme 2024 ERROR (JObj []) sampleWorld)
  /\ legalDocuments
       (snd (saveDocumentStatus acme 2024 ERROR (JObj [])
               (snd (saveDocumentStatus acme 2024 ERROR (JObj []) sampleWorld))))
     = legalDocuments (snd (saveDocumentStatus acme 2024 ERROR (JObj []) sampleWorld)).
Proof.
  apply (saveDocumentStatus_idempotent acme 2024 ERROR (JObj []) sampleWorld).
  reflexivity.
Defined.

(** ** The request flow, continued *)

(** X8: the complete flow.  When the instance is created, the link is
    fetched, the database accepts the writes and [emailLib.send] hands back
    its promise, no warning and no error is logged; the record of the account
    and the year is REQUESTED and its data is exactly the instance and the
    authenticated link, whatever it held before; no second row is added for
    the key; the e-mail is sent to the contact with the authenticated link;
    and the function settles as the promise of the e-mail does. *)
Theorem sendHelloWorksUsTaxForm_completes (env : Env) (client : HelloWorks.t)
    (account : Collective.t) (year : Z) (callbackUrl workflowId : string) (w : World)
    (mainUser : User.t) (instance : Instance.t) (step : Step.t) (rest : list Step.t)
    (documentLink : string) :
  let adminUsers := eligibleAdmins env account in
  let request :=
    createInstanceRequest account adminUsers mainUser year callbackUrl workflowId in
  let emailData :=
    EmailData.mk documentLink
      (js_or (Collective.name (User.collective mainUser))
             (Collective.legalName (User.collective mainUser)))
      (toString (js_or (js_or (Collective.legalName account) (Collective.name account))
                       (Some (Collective.slug account)))) in
  faults w = [] ->
  getMainAdminToContact (expenses env) account adminUsers = Some mainUser ->
  HelloWorks.createInstance client request = Normal instance ->
  Instance.steps instance = step :: rest ->
  HelloWorks.getAuthenticatedLinkForStep client (Instance.id instance) (Step.step step)
  = Normal documentLink ->
  (forall e', emailLib_send env "tax-form-request" (User.email mainUser) emailData
              <> ThrowsSync e') ->
  exists requested linked table logs created,
    sendHelloWorksUsTaxForm env client account year callbackUrl workflowId w
    = (match emailLib_send env "tax-form-request" (User.email mainUser) emailData with
       | Rejects e' => Throw e'
       | _ => Normal EmailSent
       end,
       mkWorld table []
         (trace w ++ logs
          ++ CreateInstanceCall request :: created
          ++ [Persisted requested;
              GetAuthenticatedLinkCall (Instance.id instance) (Step.step step);
              Persisted linked;
              EmailSendCall "tax-form-request" (User.email mainUser) emailData]))
    /\ Forall isLogged logs
    /\ (forall ev, In ev logs -> exists userId email,
                                   ev = Logged LogInfo (SkippingUser userId email))
    /\ Forall isCreation created
    /\ In linked table
    /\ sameKey US_TAX_FORM year (Collective.id account) linked = true
    /\ LegalDocument.requestStatus linked = REQUESTED
    /\ LegalDocument.data linked
       = JObj [("helloWorks", JObj [("instance", Instance.toJSON instance);
                                    ("documentLink", JStr documentLink)])]
    /\ length (rowsFor US_TAX_FORM year (Collective.id account) table)
       = Nat.max 1 (length (rowsFor US_TAX_FORM year (Collective.id account)
                              (legalDocuments w))).
Proof.
  cbv zeta. intros Hfaults Hcontact Hcreate Hsteps Hlink Hsend.
  rewrite (sendHelloWorksUsTaxForm_contact _ _ _ _ _ _ _ _ Hcontact).
  unfold requestTaxForm.
  erewrite in_try_normal by reflexivity.
  erewrite in_try_normal by (unfold lift; rewrite Hcreate; reflexivity).
  match goal with
  | |- context [saveDocumentStatus ?a ?y ?s ?d] =>
      destruct (saveDocumentStatus_accepted a y s d
                  (mkWorld (legalDocuments w) (faults w)
                     ((trace w ++ skipLogs env account)
                      ++ [CreateInstanceCall
                            (createInstanceRequest account (eligibleAdmins env account)
                               mainUser year callbackUrl workflowId)])) Hfaults)
        as (requested & table & created & Hsave & Hcreated & Hkey & Hstatus & Hdata
            & Hin & Hcount)
  end.
  erewrite in_try_normal by exact Hsave.
  erewrite in_try_normal by (unfold firstStep; rewrite Hsteps; reflexivity).
  erewrite in_try_normal
    by (unfold try_catch, bind, emit, lift, logger; simpl; rewrite Hlink; reflexivity).
  erewrite in_try_normal by (unfold update, bind, db_write; simpl; reflexivity).
  unfold emailLib_send_call.
  erewrite in_try_normal by reflexivity.
  match goal with
  | |- context [emailLib_send env ?t ?to ?d] =>
      destruct (emailLib_send env t to d) as [|e'|e'] eqn:Hout
  end.
  3: { now destruct (Hsend e'). }
  all: unfold bind, try_catch, ret, settle; simpl.
  all: exists requested,
         (LegalDocument.assign
            (LegalDocument.mkFields None
               (Some (deepMerge (LegalDocument.data requested)
                        (JObj [("helloWorks",
                                JObj [("documentLink", JStr documentLink)])]))))
            requested).
  all: eexists _, (skipLogs env account), created.
  all: split; [|split; [apply skipLogs_logged|]].
  all: try (f_equal; f_equal; rewrite <- !app_assoc; reflexivity).
  all: split;
    [intros ev Hev; unfold skipLogs in Hev; destruct (isProduction env);
     [destruct Hev | apply in_map_iff in Hev as (u & <- & _); eauto]|].
  all: split; [assumption|].
  all: split;
    [apply in_map_iff; exists requested;
     split; [now rewrite Z.eqb_refl | assumption]|].
  all: split; [assumption|]. all: split; [assumption|].
  all: split;
    [unfold LegalDocument.assign;
     cbn [LegalDocument.data LegalDocument.set_data from_option];
     rewrite Hdata; apply deepMerge_instance_link|].
  all: rewrite (rowsFor_map_assign _ _ _ _
                  (fun row => LegalDocument.id row =? LegalDocument.id requested)).
  all: exact Hcount.
Qed.

Lemma sendHelloWorksUsTaxForm_completes_witness :
  exists linked,
    fst (sendHelloWorksUsTaxForm sampleEnv workingClient acme 2024
           callbackUrl0 workflowId0 emptyWorld)
    = Normal EmailSent
    /\ In linked
         (legalDocuments
            (snd (sendHelloWorksUsTaxForm sampleEnv workingClient acme 2024
                    callbackUrl0 workflowId0 emptyWorld)))
    /\ LegalDocument.data linked
       = JObj [("helloWorks",
                JObj [("instance", Instance.toJSON instanceA);
                      ("documentLink",
                       JStr "https://helloworks.example/signed/step_1")])].
Proof.
  destruct (sendHelloWorksUsTaxForm_completes sampleEnv workingClient acme 2024
              callbackUrl0 workflowId0 emptyWorld jane instanceA stepOne []
              "https://helloworks.example/signed/step_1")
    as (requested & linked & table & logs & created & Hrun & _ & _ & _ & Hin & _ & _
        & Hdata & _).
  - reflexivity.
  - reflexivity.
  - reflexivity.
  - reflexivity.
  - reflexivity.
  - intros e'. discriminate.
  - exists linked. rewrite Hrun. simpl. repeat split; assumption.
Defined.

(** X9: an instance without steps.  Reading the URL of its first step
    throws after the REQUESTED record was written; the handler turns the
    record into an ERROR record that holds the [TypeError]; the link is not
    fetched and no e-mail is sent. *)
Theorem sendHelloWorksUsTaxForm_no_step (env : Env) (client : HelloWorks.t)
    (account : Collective.t) (year : Z) (callbackUrl workflowId : string) (w : World)
    (mainUser : User.t) (instance : Instance.t) :
  let adminUsers := eligibleAdmins env account in
  let request :=
    createInstanceRequest account adminUsers mainUser year callbackUrl workflowId in
  faults w = [] ->
  getMainAdminToContact (expenses env) account adminUsers = Some mainUser ->
  HelloWorks.createInstance client request = Normal instance ->
  Instance.steps instance = [] ->
  exists requested doc table logs created created',
    sendHelloWorksUsTaxForm env client account year callbackUrl workflowId w
    = (Normal (Document doc),
       mkWorld table []
         (trace w ++ logs
          ++ CreateInstanceCall request :: created
          ++ Persisted requested
             :: Logged LogError
                  (FailedToInitialize (Collective.id account) (User.email mainUser)
                     (TypeError_url env))
             :: created' ++ [Persisted doc]))
    /\ Forall isLogged logs /\ Forall isCreation created /\ Forall isCreation created'
    /\ LegalDocument.requestStatus requested = REQUESTED
    /\ In doc table
    /\ sameKey US_TAX_FORM year (Collective.id account) doc = true
    /\ LegalDocument.requestStatus doc = ERROR
    /\ LegalDocument.data doc
       = JObj [("error", JObj [("message", JStr (JsError.message (TypeError_url env)));
                               ("stack", JStr (JsError.stack (TypeError_url env)))])].
Proof.
  cbv zeta. intros Hfaults Hcontact Hcreate Hsteps.
  rewrite (sendHelloWorksUsTaxForm_contact _ _ _ _ _ _ _ _ Hcontact).
  unfold requestTaxForm.
  erewrite in_try_normal by reflexivity.
  erewrite in_try_normal by (unfold lift; rewrite Hcreate; reflexivity).
  match goal with
  | |- context [saveDocumentStatus ?a ?y ?s ?d] =>
      destruct (saveDocumentStatus_accepted a y s d
                  (mkWorld (legalDocuments w) (faults w)
                     ((trace w ++ skipLogs env account)
                      ++ [CreateInstanceCall
                            (createInstanceRequest account (eligibleAdmins env account)
                               mainUser year callbackUrl workflowId)])) Hfaults)
        as (requested & table & created & Hsave & Hcreated & _ & Hstatus & _ & _ & _)
  end.
  erewrite in_try_normal by exact Hsave.
  erewrite in_try_throw by (unfold firstStep; rewrite Hsteps; reflexivity).
  cbn [legalDocuments faults trace].
  match goal with
  | |- context [bind (recordFailure ?a ?u ?y ?err) settle ?w1] =>
      destruct (recordFailure_accepted a u y err w1 eq_refl)
        as (doc & table' & created' & Hrun & Hcreated' & Hkey' & Hstatus' & Hdata' & Hin')
  end.
  exists requested, doc, table', (skipLogs env account), created, created'.
  split; [|split; [apply skipLogs_logged|repeat split; assumption]].
  rewrite Hrun. f_equal. f_equal. simpl. rewrite <- !app_assoc. reflexivity.
Qed.

Lemma sendHelloWorksUsTaxForm_no_step_witness :
  exists doc,
    fst (sendHelloWorksUsTaxForm sampleEnv noStepClient acme 2024
           callbackUrl0 workflowId0 emptyWorld)
    = Normal (Document doc)
    /\ LegalDocument.requestStatus doc = ERROR.
Proof.
  destruct (sendHelloWorksUsTaxForm_no_step sampleEnv noStepClient acme 2024
              callbackUrl0 workflowId0 emptyWorld jane (Instance.mk "instance_b" []))
    as (requested & doc & table & logs & created & created' & Hrun & _ & _ & _ & _ & _
        & _ & Hstatus & _).
  - reflexivity.
  - reflexivity.
  - reflexivity.
  - reflexivity.
  - exists doc. rewrite Hrun. now split.
Defined.

(** X10: when the database rejects the write of the handler, the function
    is rejected with the error of the database; the error that was being
    handled is in the log only, and the table is as it was. *)
Theorem sendHelloWorksUsTaxForm_handler_rejected (env : Env) (client : HelloWorks.t)
    (account : Collective.t) (year : Z) (callbackUrl workflowId : string) (w : World)
    (mainUser : User.t) (error dbError : JsError.t) (rest : list (option JsError.t)) :
  let adminUsers := eligibleAdmins env account in
  let request :=
    createInstanceRequest account adminUsers mainUser year callbackUrl workflowId in
  getMainAdminToContact (expenses env) account adminUsers = Some mainUser ->
  HelloWorks.createInstance client request = Throw error ->
  faults w = Some dbError :: rest ->
  sendHelloWorksUsTaxForm env client account year callbackUrl workflowId w
  = (Throw dbError,
     mkWorld (legalDocuments w) rest
       (trace w ++ skipLogs env account
        ++ [CreateInstanceCall request;
            Logged LogError
              (FailedToInitialize (Collective.id account) (User.email mainUser) error)])).
Proof.
  cbv zeta. intros Hcontact Hcreate Hfaults.
  rewrite (sendHelloWorksUsTaxForm_contact _ _ _ _ _ _ _ _ Hcontact).
  unfold requestTaxForm.
  erewrite in_try_normal by reflexivity.
  erewrite in_try_throw by (unfold lift; rewrite Hcreate; reflexivity).
  unfold recordFailure, saveDocumentStatus, findOrCreate, bind, logger, emit, db_write.
  simpl. rewrite Hfaults. rewrite <- !app_assoc. reflexivity.
Qed.

Lemma sendHelloWorksUsTaxForm_handler_rejected_witness :
  sendHelloWorksUsTaxForm sampleEnv failingClient acme 2024 callbackUrl0 workflowId0
    (mkWorld [] [Some (JsError.mk "deadlock detected" "SequelizeDatabaseError")] [])
  = (Throw (JsError.mk "deadlock detected" "SequelizeDatabaseError"),
     mkWorld [] []
       ([] ++ skipLogs sampleEnv acme
        ++ [CreateInstanceCall
              (createInstanceRequest acme (eligibleAdmins sampleEnv acme) jane 2024
                 callbackUrl0 workflowId0);
            Logged LogError
              (FailedToInitialize 10 "jane@opencollective.com" timeoutError)])).
Proof.
  apply (sendHelloWorksUsTaxForm_handler_rejected sampleEnv failingClient acme 2024
           callbackUrl0 workflowId0
           (mkWorld [] [Some (JsError.mk "deadlock detected" "SequelizeDatabaseError")] [])
           jane timeoutError (JsError.mk "deadlock detected" "SequelizeDatabaseError") []).
  - reflexivity.
  - reflexivity.
  - reflexivity.
Defined.

(** ** Who is contacted *)

Lemma emits_firstStep (P : Event -> Prop) env instance : emits P (firstStep env instance).
Proof.
  unfold firstStep. destruct (head (Instance.steps instance));
    [apply emits_ret | apply emits_throw].
Qed.

Lemma emits_requestTaxForm (P : Event -> Prop) env client account mainUser year request :
  P (CreateInstanceCall request) ->
  (forall iid st, P (GetAuthenticatedLinkCall iid st)) ->
  (forall level msg, P (Logged level msg)) ->
  (forall row, P (Persisted row)) ->
  (forall data, P (EmailSendCall "tax-form-request" (User.email mainUser) data)) ->
  emits P (requestTaxForm env client account mainUser year request).
Proof.
  intros Hcreate Hlink Hlog Hrow Hmail. unfold requestTaxForm.
  apply emits_bind; [now apply emits_emit | intros _].
  apply emits_bind; [apply emits_lift | intros instance].
  apply emits_bind; [now apply emits_saveDocumentStatus | intros document].
  apply emits_bind; [apply emits_firstStep | intros step].
  apply emits_bind.
  { apply emits_try_catch.
    - apply emits_bind; [now apply emits_emit | intros _; apply emits_lift].
    - intros e. apply emits_bind; [now apply emits_logger | intros _; apply emits_ret]. }
  intros documentLink.
  apply emits_bind; [now apply emits_update | intros _].
  now apply emits_emailLib_send_call.
Qed.

(** X11: whatever HelloWorks, the mail transport and the database answer,
    a run asks HelloWorks for a signature of, and sends e-mail to, eligible
    admins of the account only: admins of the account, all of them with an
    internal address when the environment is not production. *)
Theorem sendHelloWorksUsTaxForm_recipients (env : Env) (client : HelloWorks.t)
    (account : Collective.t) (year : Z) (callbackUrl workflowId : string) (w : World) :
  (exists ext,
      trace (snd (sendHelloWorksUsTaxForm env client account year callbackUrl workflowId w))
      = trace w ++ ext
      /\ Forall (toEligibleAdmin env account) ext)
  /\ (forall u, In u (eligibleAdmins env account) ->
                In u (getAdminUsers env account)
                /\ (config_env env <> "production" ->
                    isEmailInternal env (User.email u) = true)).
Proof.
  split.
  - destruct (getMainAdminToContact (expenses env) account (eligibleAdmins env account))
      as [mainUser|] eqn:Hcontact.
    + assert (In mainUser (eligibleAdmins env account)) as Hadmin.
      { revert Hcontact. unfold getMainAdminToContact.
        destruct (1 <? length (eligibleAdmins env account))%nat; [|apply head_In].
        destruct (findOneLatest _ _) as [e|]; [|apply head_In].
        destruct (array_find _ _) as [found|] eqn:Hfind; [|apply head_In].
        intros [= <-]. now apply array_find_found in Hfind. }
      rewrite (sendHelloWorksUsTaxForm_contact _ _ _ _ _ _ _ _ Hcontact).
      match goal with
      | |- context [snd (?m ?w0)] =>
          assert (emits (toEligibleAdmin env account) m) as Hemits
      end.
      { apply emits_bind; [|intros p; apply emits_settle].
        apply emits_try_catch.
        - apply emits_requestTaxForm; try (intros; exact I).
          + split; [reflexivity|]. exists mainUser. eexists.
            split; [assumption | reflexivity].
          + intros data. split; [reflexivity|]. now exists mainUser.
        - intros error. apply emits_recordFailure; intros; exact I. }
      match goal with
      | |- context [snd (_ ?w0)] => destruct (Hemits w0) as (ext & Htrace & Hall)
      end.
      exists (skipLogs env account ++ ext). rewrite Htrace. simpl.
      rewrite <- app_assoc. split; [reflexivity|].
      apply Forall_app. split; [|assumption].
      eapply List.Forall_impl; [|apply skipLogs_logged]. intros [] Hlog; now try destruct Hlog.
    + rewrite (sendHelloWorksUsTaxForm_skip _ _ _ _ _ _ _ Hcontact). simpl.
      eexists. split; [reflexivity|].
      apply Forall_app. split.
      * eapply List.Forall_impl; [|apply skipLogs_logged].
        intros [] Hlog; now try destruct Hlog.
      * constructor; [exact I | constructor].
  - intros u. unfold eligibleAdmins, isProduction.
    destruct (String.eqb_spec (config_env env) "production") as [Hprod|Hother].
    + intros Hin. split; [assumption | contradiction].
    + intros Hin. apply filter_In in Hin as [Hin Hint]. now split.
Qed.

(** ** Requests and eligibility *)

Lemma legalDocumentsOf_rowsFor (c : Collective.t) (year : Z)
    (table : list LegalDocument.t) :
  legalDocumentsOf c year table = rowsFor US_TAX_FORM year (Collective.id c) table.
Proof.
  unfold legalDocumentsOf, rowsFor, sameKey. apply filter_ext. intros d.
  destruct (LegalDocument.documentType d).
  rewrite bool_decide_eq_true_2 by reflexivity. simpl. apply andb_comm.
Qed.

Lemma filter_map_same {A} (pred : A -> bool) (g : A -> A) (l : list A) :
  (forall x, pred (g x) = pred x) ->
  List.filter pred (map g l) = map g (List.filter pred l).
Proof.
  intros Hg. induction l as [|a l IH]; simpl; [reflexivity|].
  rewrite Hg. destruct (pred a); simpl; now rewrite IH.
Qed.

Lemma filter_single {A} (pred : A -> bool) (l : list A) (x : A) :
  In x l -> pred x = true -> length (List.filter pred l) = 1%nat ->
  List.filter pred l = [x].
Proof.
  intros Hin Hp Hlen.
  assert (In x (List.filter pred l)) as Hx by (apply filter_In; now split).
  destruct (List.filter pred l) as [|y [|z r]]; try discriminate.
  destruct Hx as [->|[]]. reflexivity.
Qed.

(** What [findAccountsThatNeedToBeSentTaxForm] answers. *)
Lemma findAccountsThatNeedToBeSentTaxForm_result env year (w : World) :
  fst (findAccountsThatNeedToBeSentTaxForm env year w)
  = Normal
      (if (size (getTaxFormsRequiredForAccounts env None year) =? 0)%nat then []
       else List.filter (needsTaxForm env)
              (map (fun c => mkIncluded c (legalDocumentsOf c year (legalDocuments w)))
                 (List.filter
                    (fun c => bool_decide
                                (Collective.id c
                                 ∈ elements (getTaxFormsRequiredForAccounts env None year)))
                    (collectives env)))).
Proof.
  unfold findAccountsThatNeedToBeSentTaxForm, Collective_findAll, bind, emit, ret.
  simpl. now destruct (size _ =? 0)%nat.
Qed.

(** After a request that went through, the rows of the account for the year
    are one REQUESTED row. *)
Lemma sendHelloWorksUsTaxForm_requested_row (env : Env) (client : HelloWorks.t)
    (account : Collective.t) (year : Z) (callbackUrl workflowId : string) (w : World)
    (mainUser : User.t) (instance : Instance.t) (step : Step.t) (rest : list Step.t) :
  faults w = [] ->
  getMainAdminToContact (expenses env) account (eligibleAdmins env account)
  = Some mainUser ->
  HelloWorks.createInstance client
    (createInstanceRequest account (eligibleAdmins env account) mainUser year
       callbackUrl workflowId)
  = Normal instance ->
  Instance.steps instance = step :: rest ->
  (forall data e,
      emailLib_send env "tax-form-request" (User.email mainUser) data <> ThrowsSync e) ->
  (length (rowsFor US_TAX_FORM year (Collective.id account) (legalDocuments w)) <= 1)%nat ->
  exists linked,
    rowsFor US_TAX_FORM year (Collective.id account)
      (legalDocuments
         (snd (sendHelloWorksUsTaxForm env client account year callbackUrl workflowId w)))
    = [linked]
    /\ LegalDocument.requestStatus linked = REQUESTED.
Proof.
  intros Hfaults Hcontact Hcreate Hsteps Hsend Hunique.
  rewrite (sendHelloWorksUsTaxForm_contact _ _ _ _ _ _ _ _ Hcontact).
  unfold requestTaxForm.
  erewrite in_try_normal by reflexivity.
  erewrite in_try_normal by (unfold lift; rewrite Hcreate; reflexivity).
  match goal with
  | |- context [saveDocumentStatus ?a ?y ?s ?d] =>
      destruct (saveDocumentStatus_accepted a y s d
                  (mkWorld (legalDocuments w) (faults w)
                     ((trace w ++ skipLogs env account)
                      ++ [CreateInstanceCall
                            (createInstanceRequest account (eligibleAdmins env account)
                               mainUser year callbackUrl workflowId)])) Hfaults)
        as (requested & table & created & Hsave & _ & Hkey & Hstatus & Hdata & Hin
            & Hcount)
  end.
  cbn [legalDocuments] in Hcount.
  assert (rowsFor US_TAX_FORM year (Collective.id account) table = [requested]) as Hrow.
  { apply filter_single; [assumption | assumption |]. unfold rowsFor in *. lia. }
  erewrite in_try_normal by exact Hsave.
  erewrite in_try_normal by (unfold firstStep; rewrite Hsteps; reflexivity).
  assert (exists documentLink w3,
             try_catch
               (do! emit (GetAuthenticatedLinkCall (Instance.id instance)
                            (Step.step step)) in
                lift (HelloWorks.getAuthenticatedLinkForStep client
                        (Instance.id instance) (Step.step step)))
               (fun e =>
                  do! logger LogWarn
                        (ErrorGettingAuthenticatedLink (Instance.id instance)
                           (JsError.message e)) in
                  ret (Step.url step))
               (mkWorld table []
                  (trace
                     (mkWorld (legalDocuments w) (faults w)
                        ((trace w ++ skipLogs env account)
                         ++ [CreateInstanceCall
                               (createInstanceRequest account
                                  (eligibleAdmins env account) mainUser year
                                  callbackUrl workflowId)]))
                   ++ created ++ [Persisted requested]))
             = (Normal documentLink, w3)
             /\ legalDocuments w3 = table /\ faults w3 = [])
    as (documentLink & w3 & Hfetch & Htable & Hfaults3).
  { unfold try_catch, bind, emit, lift, logger, ret. simpl.
    destruct (HelloWorks.getAuthenticatedLinkForStep client (Instance.id instance)
                (Step.step step)); simpl; eexists _, _; repeat split; reflexivity. }
  erewrite in_try_normal by exact Hfetch.
  destruct w3 as [table3 faults3 trace3]. simpl in Htable, Hfaults3. subst table3 faults3.
  erewrite in_try_normal by (unfold update, bind, db_write; simpl; reflexivity).
  unfold emailLib_send_call.
  erewrite in_try_normal by reflexivity.
  match goal with
  | |- context [emailLib_send env ?t ?to ?d] =>
      pose proof (Hsend d) as Hsync;
      destruct (emailLib_send env t to d) as [|e'|e']
  end.
  3: { now destruct (Hsync e'). }
  all: unfold bind, try_catch, ret, settle; simpl.
  all: unfold rowsFor in *; rewrite filter_map_same, Hrow
    by (intros row; destruct (LegalDocument.id row =? LegalDocument.id requested);
        reflexivity).
  all: simpl; rewrite Z.eqb_refl; eexists; split; [reflexivity | exact Hstatus].
Qed.

(** X12: requesting and eligibility compose.  When a request goes through
    for an account that had at most one document for the year, and REQUESTED
    documents are not to be requested again, the next search for the accounts
    that need a tax form for that year does not return the account. *)
Theorem sendHelloWorksUsTaxForm_then_not_eligible (env : Env) (client : HelloWorks.t)
    (account : Collective.t) (year : Z) (callbackUrl workflowId : string) (w : World)
    (mainUser : User.t) (instance : Instance.t) (step : Step.t) (rest : list Step.t) :
  faults w = [] ->
  getMainAdminToContact (expenses env) account (eligibleAdmins env account)
  = Some mainUser ->
  HelloWorks.createInstance client
    (createInstanceRequest account (eligibleAdmins env account) mainUser year
       callbackUrl workflowId)
  = Normal instance ->
  Instance.steps instance = step :: rest ->
  (forall data e,
      emailLib_send env "tax-form-request" (User.email mainUser) data <> ThrowsSync e) ->
  (length (legalDocumentsOf account year (legalDocuments w)) <= 1)%nat ->
  (forall d, LegalDocument.requestStatus d = REQUESTED -> shouldBeRequested env d = false) ->
  forall result,
    fst (findAccountsThatNeedToBeSentTaxForm env year
           (snd (sendHelloWorksUsTaxForm env client account year
                   callbackUrl workflowId w)))
    = Normal result ->
    forall cw, In cw result -> Collective.id (collective cw) <> Collective.id account.
Proof.
  intros Hfaults Hcontact Hcreate Hsteps Hsend Hunique Hrequested result Hresult cw Hin Hid.
  rewrite legalDocumentsOf_rowsFor in Hunique.
  destruct (sendHelloWorksUsTaxForm_requested_row env client account year callbackUrl
              workflowId w mainUser instance step rest Hfaults Hcontact Hcreate Hsteps
              Hsend Hunique) as (linked & Hrow & Hstatus).
  rewrite findAccountsThatNeedToBeSentTaxForm_result in Hresult.
  injection Hresult as <-.
  destruct (size _ =? 0)%nat; [destruct Hin|].
  apply filter_In in Hin as [Hin Hneeds].
  apply in_map_iff in Hin as (c & <- & _). simpl in Hid.
  unfold needsTaxForm in Hneeds. simpl in Hneeds.
  rewrite legalDocumentsOf_rowsFor, Hid, Hrow in Hneeds. simpl in Hneeds.
  rewrite (Hrequested linked Hstatus) in Hneeds. discriminate.
Qed.

Lemma sendHelloWorksUsTaxForm_then_not_eligible_witness :
  Collective.id (collective (mkIncluded (User.collective jane) []))
  <> Collective.id acme.
Proof.
  apply (sendHelloWorksUsTaxForm_then_not_eligible sampleEnv workingClient acme 2024
           callbackUrl0 workflowId0 emptyWorld jane instanceA stepOne [])
    with (result := [mkIncluded (User.collective jane) []]).
  - reflexivity.
  - reflexivity.
  - reflexivity.
  - reflexivity.
  - intros data e. discriminate.
  - simpl. lia.
  - intros d Hd. simpl. now rewrite Hd.
  - vm_compute. reflexivity.
  - simpl. tauto.
Defined.

(** X13: a failed request is tried again.  When the creation of the
    instance fails, the database accepts the ERROR record, and ERROR documents
    are to be requested again, the next search returns the account, provided
    it still is a candidate for the year. *)
Theorem sendHelloWorksUsTaxForm_error_still_eligible (env : Env) (client : HelloWorks.t)
    (account : Collective.t) (year : Z) (callbackUrl workflowId : string) (w : World)
    (mainUser : User.t) (error : JsError.t) :
  faults w = [] ->
  getMainAdminToContact (expenses env) account (eligibleAdmins env account)
  = Some mainUser ->
  HelloWorks.createInstance client
    (createInstanceRequest account (eligibleAdmins env account) mainUser year
       callbackUrl workflowId)
  = Throw error ->
  (forall d, LegalDocument.requestStatus d = ERROR -> shouldBeRequested env d = true) ->
  In account (collectives env) ->
  Collective.id account ∈ getTaxFormsRequiredForAccounts env None year ->
  exists result documents,
    fst (findAccountsThatNeedToBeSentTaxForm env year
           (snd (sendHelloWorksUsTaxForm env client account year
                   callbackUrl workflowId w)))
    = Normal result
    /\ In (mkIncluded account documents) result
    /\ exists doc, In doc documents /\ LegalDocument.requestStatus doc = ERROR.
Proof.
  intros Hfaults Hcontact Hcreate Herror Haccount Hcandidate.
  rewrite findAccountsThatNeedToBeSentTaxForm_result.
  rewrite (sendHelloWorksUsTaxForm_contact _ _ _ _ _ _ _ _ Hcontact).
  unfold requestTaxForm.
  erewrite in_try_normal by reflexivity.
  erewrite in_try_throw by (unfold lift; rewrite Hcreate; reflexivity).
  cbn [legalDocuments faults trace].
  match goal with
  | |- context [bind (recordFailure ?a ?u ?y ?err) settle ?w1] =>
      destruct (recordFailure_accepted a u y err w1 Hfaults)
        as (doc & table & created & Hrun & _ & Hkey & Hstatus & _ & Hin)
  end.
  rewrite Hrun. cbn [snd legalDocuments].
  assert (In doc (legalDocumentsOf account year table)) as Hdoc.
  { rewrite legalDocumentsOf_rowsFor. apply filter_In. now split. }
  destruct (Nat.eqb_spec (size (getTaxFormsRequiredForAccounts env None year)) 0)
    as [Hempty|_].
  { apply size_empty_iff, leibniz_equiv in Hempty. rewrite Hempty in Hcandidate.
    set_solver. }
  eexists _, (legalDocumentsOf account year table). split; [reflexivity|].
  split; [|now exists doc].
  apply filter_In. split.
  - apply in_map_iff. exists account. split; [reflexivity|].
    apply filter_In. split; [assumption|].
    apply bool_decide_eq_true. now apply elem_of_elements.
  - unfold needsTaxForm. simpl. apply orb_true_iff. right.
    apply existsb_exists. exists doc. split; [assumption | now apply Herror].
Qed.

Lemma sendHelloWorksUsTaxForm_error_still_eligible_witness :
  exists result documents,
    fst (findAccountsThatNeedToBeSentTaxForm sampleEnv 2024
           (snd (sendHelloWorksUsTaxForm sampleEnv failingClient acme 2024
                   callbackUrl0 workflowId0 emptyWorld)))
    = Normal result
    /\ In (mkIncluded acme documents) result
    /\ exists doc, In doc documents /\ LegalDocument.requestStatus doc = ERROR.
Proof.
  apply (sendHelloWorksUsTaxForm_error_still_eligible sampleEnv failingClient acme 2024
           callbackUrl0 workflowId0 emptyWorld jane timeoutError).
  - reflexivity.
  - reflexivity.
  - reflexivity.
  - intros d Hd. simpl. now rewrite Hd.
  - simpl. tauto.
  - vm_compute. reflexivity.
Defined.

(** ** Saving and finding *)

(** X15: after [saveDocumentStatus] went through, finding or creating the
    document of the account and the year returns the row that was saved,
    creates nothing and leaves the world as it is. *)
Theorem saveDocumentStatus_then_findOrCreate account year status data (w : World) :
  faults w = [] ->
  exists doc w',
    saveDocumentStatus account year status data w = (Normal doc, w')
    /\ LegalDocument.requestStatus doc = status
    /\ LegalDocument.data doc = data
    /\ findOrCreate US_TAX_FORM year (Collective.id account) w'
       = (Normal (doc, false), w').
Proof.
  intros Hfaults.
  set (key := sameKey US_TAX_FORM year (Collective.id account)).
  set (f := LegalDocument.mkFields (Some status) (Some data)).
  assert (forall id row,
             key (if LegalDocument.id row =? id then LegalDocument.assign f row else row)
             = key row) as Hkey.
  { intros id row. destruct (LegalDocument.id row =? id); reflexivity. }
  destruct (array_find key (legalDocuments w)) as [doc|] eqn:Hfind.
  - rewrite (saveDocumentStatus_found account year status data w doc Hfaults Hfind).
    eexists _, _. split; [reflexivity|]. split; [reflexivity|]. split; [reflexivity|].
    unfold findOrCreate, bind, db_write. simpl. fold key f.
    rewrite (array_find_map key _ _ (Hkey (LegalDocument.id doc))).
    fold key in Hfind. rewrite Hfind. simpl. now rewrite Z.eqb_refl.
  - rewrite (saveDocumentStatus_created account year status data w Hfaults Hfind).
    eexists _, _. split; [reflexivity|]. split; [reflexivity|]. split; [reflexivity|].
    unfold findOrCreate, bind, db_write. simpl. fold key f.
    rewrite (array_find_map key _ _ (Hkey (nextId (legalDocuments w)))).
    fold key in Hfind. rewrite (array_find_app_none _ _ _ Hfind).
    assert (key (LegalDocument.mk (nextId (legalDocuments w)) US_TAX_FORM year
                   (Collective.id account) NOT_REQUESTED JNull) = true) as ->.
    { unfold key, sameKey. simpl. now rewrite !Z.eqb_refl. }
    simpl. now rewrite Z.eqb_refl.
Qed.

Lemma saveDocumentStatus_then_findOrCreate_witness :
  exists doc w',
    saveDocumentStatus acme 2024 REQUESTED (JObj []) sampleWorld = (Normal doc, w')
    /\ LegalDocument.requestStatus doc = REQUESTED
    /\ LegalDocument.data doc = JObj []
    /\ findOrCreate US_TAX_FORM 2024 (Collective.id acme) w' = (Normal (doc, false), w').
Proof.
  apply (saveDocumentStatus_then_findOrCreate acme 2024 REQUESTED (JObj []) sampleWorld).
  reflexivity.
Defined.
